(** * poplar: the one-hot test encoder and the two training orchestrators

    A shallow embedding of [poplar/model/dummy.py], [poplar/train/ppi.py] and
    [poplar/train/simple_ppi.py].

    Conventions of the embedding.
    - Python [int] is [Z]; [//] is [Z.div] and [%] is [Z.modulo] (both floor,
      as in Python), with [ZeroDivisionError] raised explicitly on a zero
      divisor.
    - Python [str] is [string] (8-bit characters); a dictionary keyed by
      strings is a [gmap string _].
    - Exceptions are values of [exn]; fallible code returns [result], and an
      exception aborts the function that raises it.
    - Floats, tensors, the wall clock, the tokenizer and the scoring model
      with its optimizer are not part of this repository: they are the
      fields of the [Runtime] interface, and the training functions are
      written against it.  Calls on these collaborators return.
    - Calls on the collaborators (optimizer, scheduler, summary writer,
      checkpoint store, console) are recorded, in program order, in an event
      log that is threaded through the training functions. *)

From Stdlib Require Import ZArith List String Ascii Bool Lia QArith.
From stdpp Require Import base gmap strings list fin_maps.

Open Scope string_scope.
Open Scope list_scope.
Open Scope Z_scope.

(** ** Exceptions and results *)

Inductive exn : Type :=
| KeyError (key : string)
| NameError (name : string)
| ZeroDivisionError
| TypeError (what : string).

Inductive result (A : Type) : Type :=
| Ok (a : A)
| Raise (e : exn).

Arguments Ok {A} a.
Arguments Raise {A} e.

#[global] Instance result_ret : MRet result := fun A a => Ok a.

#[global] Instance result_bind : MBind result := fun A B k r =>
  match r with
  | Ok a => k a
  | Raise e => Raise e
  end.

(** [a // b] *)
Definition floordiv (a b : Z) : result Z :=
  if b =? 0 then Raise ZeroDivisionError else Ok (a / b).

(** [a % b] *)
Definition pymod (a b : Z) : result Z :=
  if b =? 0 then Raise ZeroDivisionError else Ok (a mod b).

(** [list(map(f, xs))] for a fallible [f]: elements are visited left to
    right and the first exception escapes. *)
Fixpoint py_map {A B} (f : A -> result B) (xs : list A) : result (list B) :=
  match xs with
  | [] => Ok []
  | x :: xs' =>
      y ← f x;
      ys ← py_map f xs';
      Ok (y :: ys)
  end.

(** ** [poplar/model/dummy.py] *)

Module Dummy.

(** [s.split(sep)] for a one-character separator: every occurrence of the
    separator cuts, so consecutive separators give empty pieces and the
    empty string gives one empty piece. *)
Fixpoint split (sep : ascii) (s : string) : list string :=
  match s with
  | EmptyString => [EmptyString]
  | String c s' =>
      if Ascii.eqb c sep then EmptyString :: split sep s'
      else match split sep s' with
           | [] => [String c EmptyString]
           | w :: ws => String c w :: ws
           end
  end.

(** Iterating a string yields its one-character substrings. *)
Definition chars (s : string) : list string :=
  map (fun c => String c EmptyString) (list_ascii_of_string s).

(** [np.arange(n)] *)
Definition arange (n : nat) : list Z := map Z.of_nat (seq 0 n).

(** [dict(pairs)]: pairs are inserted in order, a later key overwrites. *)
Definition py_dict (kvs : list (string * Z)) : gmap string Z :=
  foldl (fun m kv => <[kv.1 := kv.2]> m) ∅ kvs.

Definition alphabet : string := "^.ABCDEFGHIJKLMNOPQRSTUVWXYZ".

(** [self.peptides = dict(zip('^.ABC...XYZ', np.arange(27)))]; [zip] stops at
    the shorter argument ([combine]). *)
Definition peptides : gmap string Z :=
  py_dict (combine (chars alphabet) (arange 27)).

(** [self.peptides[x]] *)
Definition getitem (d : gmap string Z) (k : string) : result Z :=
  match d !! k with
  | Some v => Ok v
  | None => Raise (KeyError k)
  end.

(** [DummyModel.encode] *)
Definition encode (x : string) : result (list Z) :=
  let y := "^ " +:+ x +:+ " ." in
  let y := split " " y in
  py_map (getitem peptides) y.

(** The symbols of a space delimited input, as [encode] sees them. *)
Definition symbols (x : string) : list string := split " " x.

(** [' '.join(syms)] *)
Fixpoint join (syms : list string) : string :=
  match syms with
  | [] => ""
  | [s] => s
  | s :: rest => s +:+ " " +:+ join rest
  end.

(** Space, tab, line feed, vertical tab, form feed, carriage return. *)
Definition is_space (c : ascii) : bool :=
  let n := nat_of_ascii c in
  Nat.eqb n 32 || (Nat.leb 9 n && Nat.leb n 13).

(** The symbols of a whitespace-delimited string in the words of the
    interface description: its maximal runs of characters that are not
    whitespace.  [encode] does not use it. *)
Fixpoint whitespace_symbols (s : string) : list string :=
  match s with
  | EmptyString => []
  | String c s' =>
      if is_space c then whitespace_symbols s'
      else match s' with
           | EmptyString => [String c EmptyString]
           | String d _ =>
               if is_space d then String c EmptyString :: whitespace_symbols s'
               else match whitespace_symbols s' with
                    | [] => [String c EmptyString]
                    | w :: ws => String c w :: ws
                    end
           end
  end.

(** [c in s] for a character [c] *)
Fixpoint contains (c : ascii) (s : string) : bool :=
  match s with
  | EmptyString => false
  | String d s' => Ascii.eqb d c || contains c s'
  end.

End Dummy.

(** ** The external runtime

    Everything the orchestrators call but this repository does not define:
    float arithmetic, the wall clock, the tokenizer and the Interaction
    Scoring Model with its optimizer and scheduler.  The orchestrators are
    written once against this interface; [QRuntime] below is an instance on
    exact rationals used to run them on concrete inputs. *)

Class Runtime : Type := {
  (** Python floats and one-element tensors *)
  scalar : Type;
  s_of_Z : Z -> scalar;
  s_add : scalar -> scalar -> scalar;
  s_sub : scalar -> scalar -> scalar;
  s_div : scalar -> scalar -> scalar;
  s_gtb : scalar -> scalar -> bool;
  (** [loss.mean()] over the replicas of a data-parallel model *)
  s_mean : scalar -> scalar;
  (** the value of the n-th call of [time.time()] *)
  time_at : nat -> scalar;
  (** a raw sequence and its tensor of tokens *)
  sequence : Type;
  tokens : Type;
  tokenize : sequence -> tokens;
  (** parameters, accumulated gradients, optimizer and scheduler state *)
  params : Type;
  forward : params -> list (tokens * tokens * tokens) -> scalar;
  (** one similarity score per example *)
  predict : params -> tokens -> tokens -> scalar;
  backward : params -> list (tokens * tokens * tokens) -> scalar -> params;
  clip_grad_norm_ : scalar -> params -> params;
  optimizer_step : params -> params;
  scheduler_step : params -> params;
  zero_grad : params -> params;
  (** helpers of [poplar.summary] and [poplar.evaluate] used by [ppi.train]:
      only the value each one returns is known to the caller *)
  summarize_gradients : params -> Z -> scalar -> Z -> nat -> scalar;
  checkpoint : params -> Z -> scalar -> nat -> scalar;
  pairwise_auc : params -> Z -> scalar;
}.

Module Train.

Section Orchestrator.

Context `{RT : Runtime}.

(** *** Data model *)

(** An Interaction Triple: anchor, positive partner, negative partner. *)
Definition triple : Type := sequence * sequence * sequence.

(** A batch is delivered as three parallel collections [(gene, pos, neg)];
    it is kept here as the list of its triples, so [len(gene)] is its
    length. *)
Definition batch : Type := list triple.

(** A [DataLoader]: iterating yields [batches] in order, [len] is their
    number. *)
Record loader : Type := {
  batches : list batch;
  loader_batch_size : Z;
}.

Definition len (l : loader) : Z := Z.of_nat (length (batches l)).

(** An [InteractionDataDirectory] whose iteration yields shards of type
    [S]: a pair (train, test) for [simple_ppitrain], a triple
    (train, test, validation) for [train]. *)
Record directory (S : Type) : Type := {
  total : Z;
  shards : list S;
}.

Arguments total {S} d.
Arguments shards {S} d.

(** Values that are printed or stored in the hyperparameter summary. *)
Inductive pyval : Type :=
| PInt (z : Z)
| PNum (x : scalar)
| PStr (s : string).

(** Calls on the collaborators, in program order. *)
Inductive event : Type :=
| Print (fields : list (string * pyval))
| InitLogging
| TrainMode
| Backward
| ClipGradNorm
| OptimizerStep
| SchedulerStep
| ZeroGrad
| EmptyCache
| AddScalar (tag : string) (value : scalar) (step : Z)
| AddHistograms (step : Z)
| AddHparams (hparam_dict : list (string * pyval))
             (metric_dict : list (string * scalar))
| TorchSave (path : string)
| SummarizeGradients (step : Z)
| Checkpoint
| PairwiseAuc (tag : string) (step : Z)
| WriterClose
| LoadPretrained (checkpoint_path data_dir : string)
| FreezeWeights
| MakeDirectory.

Record hyper : Type := {
  emb_dimension : Z;
  max_steps : Z;
  learning_rate : scalar;
  warmup_steps : Z;
  gradient_accumulation_steps : Z;
  clip_norm : scalar;
  summary_interval : Z;
  checkpoint_interval : Z;
  model_path : string;
  device : string;
  (** [torch.cuda.device_count()] *)
  n_gpu : Z;
  (** [os.environ] *)
  environ : gmap string string;
}.

(** The local variables of a training function that outlive one loop
    iteration, with the model and the log of collaborator calls. *)
Record state : Type := {
  it : Z;
  err : scalar;
  cv_err : scalar;
  tpr : scalar;
  pos_score : scalar;
  batch_size : Z;
  last_summary_time : scalar;
  last_checkpoint_time : scalar;
  now : scalar;
  last_now : scalar;
  ticks : nat;
  model : params;
  log : list event;
}.

(** *** Python helpers *)

(** [enumerate(xs)], counting from [i] *)
Fixpoint enumerate_from {A} (i : Z) (xs : list A) : list (Z * A) :=
  match xs with
  | [] => []
  | x :: xs' => (i, x) :: enumerate_from (i + 1) xs'
  end.

Definition enumerate {A} (xs : list A) : list (Z * A) := enumerate_from 0 xs.

(** [range(n)]; empty when [n <= 0] *)
Definition range (n : Z) : list Z := map Z.of_nat (seq 0 (Z.to_nat n)).

(** [for x in xs: s = body(s, x)], leaving at the first exception *)
Fixpoint for_each {A S} (body : S -> A -> result S) (xs : list A) (s : S)
  : result S :=
  match xs with
  | [] => Ok s
  | x :: xs' => s' ← body s x; for_each body xs' s'
  end.

(** [sub in s] for strings *)
Fixpoint is_prefix (p s : string) : bool :=
  match p, s with
  | EmptyString, _ => true
  | String a p', String b s' => Ascii.eqb a b && is_prefix p' s'
  | String _ _, EmptyString => false
  end.

Fixpoint is_substring (p s : string) : bool :=
  is_prefix p s ||
  match s with
  | EmptyString => false
  | String _ s' => is_substring p s'
  end.

(** [a / b] on floats with an integer divisor *)
Definition truediv (a : scalar) (b : Z) : result scalar :=
  if b =? 0 then Raise ZeroDivisionError else Ok (s_div a (s_of_Z b)).

(** [torch.sum(t).item()] *)
Definition s_sum (xs : list scalar) : scalar :=
  fold_left s_add xs (s_of_Z 0).

Definition tokenize_batch (b : batch) : list (tokens * tokens * tokens) :=
  map (fun t : triple =>
         let '(g, p, n) := t in (tokenize g, tokenize p, tokenize n)) b.

(** [os.environ[k]] *)
Definition getenv (h : hyper) (k : string) : result string :=
  match environ h !! k with
  | Some v => Ok v
  | None => Raise (KeyError k)
  end.

(** *** [poplar/train/simple_ppi.py]: [simple_ppitrain] *)

(** The body of [for j, (gene, pos, neg) in enumerate(train_dataloader)]. *)
Definition simple_train_batch (h : hyper) (e k num_batches : Z)
    (s : state) (jb : Z * batch) : result state :=
  let '(j, b) := jb in
  let gas := gradient_accumulation_steps h in
  let last_now' := now s in
  let now' := time_at (ticks s) in
  let gpn := tokenize_batch b in
  let loss := forward (model s) gpn in
  let loss := if 1 <? n_gpu h then s_mean loss else loss in
  let loss := if 1 <? gas then s_div loss (s_of_Z gas) else loss in
  let m := clip_grad_norm_ (clip_norm h) (backward (model s) gpn loss) in
  let it' := it s + Z.of_nat (length b) in
  let err' := loss in
  let summary :=
    s_gtb (s_sub now' (last_summary_time s)) (s_of_Z (summary_interval h)) in
  let save :=
    s_gtb (s_sub now' (last_checkpoint_time s))
          (s_of_Z (checkpoint_interval h)) in
  r ← pymod j gas;
  let step := r =? 0 in
  Ok {| it := it';
        err := err';
        cv_err := cv_err s;
        tpr := tpr s;
        pos_score := pos_score s;
        batch_size := batch_size s;
        last_summary_time := if summary then now' else last_summary_time s;
        last_checkpoint_time := if save then now' else last_checkpoint_time s;
        now := now';
        last_now := last_now';
        ticks := S (ticks s);
        model := if step then zero_grad (scheduler_step (optimizer_step m))
                 else m;
        log := log s
          ++ [Backward; ClipGradNorm;
              Print [("epoch", PInt e); ("dataset", PInt k); ("batch", PInt j);
                     ("err", PNum err'); ("total batches", PInt num_batches)]]
          ++ (if summary
              then [AddScalar "train_error" err' it'; AddHistograms it']
              else [])
          ++ (if is_substring "cuda" (device h) then [EmptyCache] else [])
          ++ (if save then [TorchSave (model_path h)] else [])
          ++ (if step then [OptimizerStep; SchedulerStep; ZeroGrad] else [])
     |}.

(** The accumulators of the Cross-Validation Pass: [cv_err] and [pos_score]
    live in the function's locals, [rank_counts] is local to the pass. *)
Record cv_acc : Type := {
  cv_state : state;
  rank_counts : Z;
}.

Definition pred_pos (m : params) (gpn : list (tokens * tokens * tokens))
  : list scalar :=
  map (fun t => let '(g, p, n) := t in predict m g p) gpn.

Definition pred_neg (m : params) (gpn : list (tokens * tokens * tokens))
  : list scalar :=
  map (fun t => let '(g, p, n) := t in predict m g n) gpn.

(** [torch.sum(a > b).item()] *)
Definition count_gt (a b : list scalar) : Z :=
  Z.of_nat
    (length (List.filter (fun xy => s_gtb (fst xy) (snd xy)) (combine a b))).

(** The body of [for j, (cv_gene, cv_pos, cv_neg) in
    enumerate(test_dataloader)]. *)
Definition simple_cv_batch (h : hyper) (e k num_cv_batches : Z)
    (a : cv_acc) (jb : Z * batch) : result cv_acc :=
  let '(j, b) := jb in
  let s := cv_state a in
  let gpn := tokenize_batch b in
  let cv_score := forward (model s) gpn in
  let pp := pred_pos (model s) gpn in
  let pn := pred_neg (model s) gpn in
  let cv_err' := s_add (cv_err s) cv_score in
  let pos_score' := s_add (pos_score s) (s_sum pp) in
  let rank_counts' := rank_counts a + count_gt pp pn in
  Ok {| cv_state :=
          {| it := it s;
             err := err s;
             cv_err := cv_err';
             tpr := tpr s;
             pos_score := pos_score';
             batch_size := batch_size s;
             last_summary_time := last_summary_time s;
             last_checkpoint_time := last_checkpoint_time s;
             now := now s;
             last_now := last_now s;
             ticks := ticks s;
             model := model s;
             log := log s
               ++ [Print [("epoch", PInt e); ("dataset", PInt k);
                          ("batch", PInt j); ("cv_err", PNum cv_err');
                          ("rank_counts", PInt rank_counts');
                          ("total batches", PInt num_cv_batches)]]
               ++ (if is_substring "cuda" (device h) then [EmptyCache]
                   else [])
          |};
        rank_counts := rank_counts' |}.

(** The accumulators at the start of a pass:
    [cv_err, pos_score, rank_counts = 0, 0, 0] and
    [batch_size = test_dataloader.batch_size]. *)
Definition cv_init (s : state) (test_dataloader : loader) : cv_acc :=
  {| cv_state :=
       {| it := it s;
          err := err s;
          cv_err := s_of_Z 0;
          tpr := tpr s;
          pos_score := s_of_Z 0;
          batch_size := loader_batch_size test_dataloader;
          last_summary_time := last_summary_time s;
          last_checkpoint_time := last_checkpoint_time s;
          now := now s;
          last_now := last_now s;
          ticks := ticks s;
          model := model s;
          log := log s |};
     rank_counts := 0 |}.

(** What follows the loop: [if len(test_dataloader) > 0: ...]. *)
Definition cv_report (e k : Z) (test_dataloader : loader) (a : cv_acc)
  : result state :=
  let s := cv_state a in
  if 0 <? len test_dataloader then
    cv_err' ← truediv (cv_err s) (len test_dataloader);
    avg_rank ← truediv (s_of_Z (rank_counts a)) (len test_dataloader);
    tpr' ← truediv avg_rank (batch_size s);
    pos_score' ← truediv (pos_score s) (len test_dataloader);
    Ok {| it := it s;
          err := err s;
          cv_err := cv_err';
          tpr := tpr';
          pos_score := pos_score';
          batch_size := batch_size s;
          last_summary_time := last_summary_time s;
          last_checkpoint_time := last_checkpoint_time s;
          now := now s;
          last_now := last_now s;
          ticks := ticks s;
          model := model s;
          log := log s
            ++ [Print [("epoch", PInt e); ("dataset", PInt k);
                       ("cv_err", PNum cv_err'); ("rank_counts", PNum avg_rank);
                       ("tpr", PNum tpr'); ("pos_score", PNum pos_score');
                       ("total batches", PInt (len test_dataloader))];
                AddScalar "test_error" cv_err' (it s);
                AddScalar "TPR" tpr' (it s);
                AddScalar "pos_score" pos_score' (it s)] |}
  else Ok s.

(** The Cross-Validation Pass: the block under [with torch.no_grad()]. *)
Definition simple_cross_validation (h : hyper) (e k : Z)
    (test_dataloader : loader) (s : state) : result state :=
  a ← for_each (simple_cv_batch h e k (len test_dataloader))
         (enumerate (batches test_dataloader)) (cv_init s test_dataloader);
  cv_report e k test_dataloader a.

(** The body of [for k, dataloader in enumerate(directory_dataloader)]. *)
Definition simple_shard (h : hyper) (e : Z) (s : state)
    (kd : Z * (loader * loader)) : result state :=
  let '(k, (train_dataloader, test_dataloader)) := kd in
  let num_batches := len train_dataloader in
  let num_cv_batches := len test_dataloader in
  let s0 :=
    {| it := it s;
       err := err s;
       cv_err := cv_err s;
       tpr := tpr s;
       pos_score := pos_score s;
       batch_size := loader_batch_size train_dataloader;
       last_summary_time := last_summary_time s;
       last_checkpoint_time := last_checkpoint_time s;
       now := now s;
       last_now := last_now s;
       ticks := ticks s;
       model := model s;
       log := log s
         ++ [TrainMode;
             Print [("dataset", PInt k); ("num_batches", PInt num_batches);
                    ("num_cvs", PInt num_cv_batches)]] |} in
  s1 ← for_each (simple_train_batch h e k num_batches)
          (enumerate (batches train_dataloader)) s0;
  simple_cross_validation h e k test_dataloader s1.

(** The body of [for e in range(epochs)]. *)
Definition simple_epoch (h : hyper) (d : directory (loader * loader))
    (s : state) (e : Z) : result state :=
  for_each (simple_shard h e) (enumerate (shards d)) s.

(** The number of epochs [simple_ppitrain] runs. *)
Definition simple_epochs (h : hyper) (d : directory (loader * loader))
  : result Z :=
  let gas := gradient_accumulation_steps h in
  if 0 <? max_steps h then
    let num_data := total d in
    q ← floordiv (max_steps h) gas;
    let t_total := q + 1 in
    floordiv t_total num_data
  else
    let num_data := total d in
    t_total ← floordiv num_data gas;
    Ok 1.

Definition simple_ppitrain (h : hyper) (finetuned_model : params)
    (d : directory (loader * loader)) : result state :=
  let last_summary_time0 := time_at 0 in
  let last_checkpoint_time0 := time_at 1 in
  epochs ← simple_epochs h d;
  visible ← getenv h "CUDA_VISIBLE_DEVICES";
  let s0 :=
    {| it := 0;
       err := s_of_Z 0;
       cv_err := s_of_Z 0;
       tpr := s_of_Z 0;
       pos_score := s_of_Z 0;
       batch_size := 0;
       last_summary_time := last_summary_time0;
       last_checkpoint_time := last_checkpoint_time0;
       now := time_at 2;
       last_now := time_at 3;
       ticks := 4;
       model := finetuned_model;
       log := [Print [(visible, PStr "devices available")];
               Print [("Utilizing", PInt (n_gpu h)); ("device", PStr (device h))];
               InitLogging;
               Print [("Number of pairs", PInt (total d))];
               Print [("Number datasets",
                       PInt (Z.of_nat (length (shards d))))];
               Print [("Number of epochs", PInt epochs)]] |} in
  s ← for_each (simple_epoch h d) (range epochs) s0;
  Ok {| it := it s;
        err := err s;
        cv_err := cv_err s;
        tpr := tpr s;
        pos_score := pos_score s;
        batch_size := batch_size s;
        last_summary_time := last_summary_time s;
        last_checkpoint_time := last_checkpoint_time s;
        now := now s;
        last_now := last_now s;
        ticks := ticks s;
        model := model s;
        log := log s
          ++ [AddHparams
                [("emb_dimension", PInt (emb_dimension h));
                 ("learning_rate", PNum (learning_rate h));
                 ("warmup_steps", PInt (warmup_steps h));
                 ("gradient_accumulation_steps",
                  PInt (gradient_accumulation_steps h));
                 ("batch_size", PInt (batch_size s))]
                [("train_error", err s);
                 ("test_error", cv_err s);
                 ("TPR", tpr s);
                 ("pos_score", pos_score s)];
              WriterClose] |}.

(** *** [poplar/train/ppi.py]: [train] *)

(** The body of [for j, (gene, pos, neg) in enumerate(train_dataloader)].
    [ppi_model.encode] is the runtime's [tokenize]; [summarize_gradients]
    and [checkpoint] are calls into [poplar.summary], of which only the
    returned timestamps are used here. *)
Definition train_batch (h : hyper) (s : state) (jb : Z * batch)
  : result state :=
  let '(j, b) := jb in
  let gas := gradient_accumulation_steps h in
  let gpn := tokenize_batch b in
  let loss := forward (model s) gpn in
  let loss := if 1 <? n_gpu h then s_mean loss else loss in
  let loss := if 1 <? gas then s_div loss (s_of_Z gas) else loss in
  let m := clip_grad_norm_ (clip_norm h) (backward (model s) gpn loss) in
  let it' := it s + Z.of_nat (length b) in
  let err' := loss in
  let last_summary_time' :=
    summarize_gradients m (summary_interval h) (last_summary_time s) it'
                        (ticks s) in
  let last_checkpoint_time' :=
    checkpoint m (checkpoint_interval h) (last_checkpoint_time s)
               (S (ticks s)) in
  r ← pymod j gas;
  let step := r =? 0 in
  Ok {| it := it';
        err := err';
        cv_err := cv_err s;
        tpr := tpr s;
        pos_score := pos_score s;
        batch_size := batch_size s;
        last_summary_time := last_summary_time';
        last_checkpoint_time := last_checkpoint_time';
        now := now s;
        last_now := last_now s;
        ticks := S (S (ticks s));
        model := if step then zero_grad (scheduler_step (optimizer_step m))
                 else m;
        log := log s
          ++ [Backward; ClipGradNorm; SummarizeGradients it']
          ++ (if is_substring "cuda" (device h) then [EmptyCache] else [])
          ++ [Checkpoint]
          ++ (if step then [OptimizerStep; SchedulerStep; ZeroGrad] else [])
     |}.

(** The body of [for k, dataloader in enumerate(directory_dataloader)];
    the cross validation is the call of [pairwise_auc]. *)
Definition train_shard (h : hyper) (s : state)
    (kd : Z * (loader * loader * loader)) : result state :=
  let '(k, (train_dataloader, test_dataloader, valid_dataloader)) := kd in
  let num_batches := len train_dataloader in
  let s0 :=
    {| it := it s;
       err := err s;
       cv_err := cv_err s;
       tpr := tpr s;
       pos_score := pos_score s;
       batch_size := loader_batch_size train_dataloader;
       last_summary_time := last_summary_time s;
       last_checkpoint_time := last_checkpoint_time s;
       now := now s;
       last_now := last_now s;
       ticks := ticks s;
       model := model s;
       log := log s
         ++ [TrainMode;
             Print [("dataset", PInt k); ("num_batches", PInt num_batches)]]
    |} in
  s1 ← for_each (train_batch h) (enumerate (batches train_dataloader)) s0;
  Ok {| it := it s1;
        err := err s1;
        cv_err := cv_err s1;
        tpr := pairwise_auc (model s1) (it s1);
        pos_score := pos_score s1;
        batch_size := batch_size s1;
        last_summary_time := last_summary_time s1;
        last_checkpoint_time := last_checkpoint_time s1;
        now := now s1;
        last_now := last_now s1;
        ticks := ticks s1;
        model := model s1;
        log := log s1 ++ [PairwiseAuc "Main/test" (it s1)] |}.

(** The body of [for e in range(epochs)]. *)
Definition train_epoch (h : hyper) (d : directory (loader * loader * loader))
    (s : state) (e : Z) : result state :=
  for_each (train_shard h) (enumerate (shards d)) s.

(** The number of epochs [train] runs:
    [max_steps = max(1, max_steps); epochs = max_steps // num_data],
    after [t_total = num_data // gradient_accumulation_steps]. *)
Definition train_epochs (h : hyper) (d : directory (loader * loader * loader))
  : result Z :=
  let num_data := total d in
  t_total ← floordiv num_data (gradient_accumulation_steps h);
  let max_steps' := Z.max 1 (max_steps h) in
  floordiv max_steps' num_data.

(** [train] has no variables [now], [last_now], [cv_err] and [pos_score]:
    these fields of the state are carried along unchanged. *)
Definition train (h : hyper) (ppi_model : params)
    (d : directory (loader * loader * loader)) : result state :=
  let last_summary_time0 := time_at 0 in
  let last_checkpoint_time0 := time_at 1 in
  epochs ← train_epochs h d;
  let s0 :=
    {| it := 0;
       err := s_of_Z 0;
       cv_err := s_of_Z 0;
       tpr := s_of_Z 0;
       pos_score := s_of_Z 0;
       batch_size := 0;
       last_summary_time := last_summary_time0;
       last_checkpoint_time := last_checkpoint_time0;
       now := last_checkpoint_time0;
       last_now := last_checkpoint_time0;
       ticks := 2;
       model := ppi_model;
       log := [InitLogging;
               Print [("Number of pairs", PInt (total d))];
               Print [("Number datasets",
                       PInt (Z.of_nat (length (shards d))))];
               Print [("Number of epochs", PInt epochs)]] |} in
  s ← for_each (train_epoch h d) (range epochs) s0;
  Ok {| it := it s;
        err := err s;
        cv_err := cv_err s;
        tpr := tpr s;
        pos_score := pos_score s;
        batch_size := batch_size s;
        last_summary_time := last_summary_time s;
        last_checkpoint_time := last_checkpoint_time s;
        now := now s;
        last_now := last_now s;
        ticks := ticks s;
        model := model s;
        log := log s ++ [WriterClose] |}.

(** *** Module namespaces and the entry point [simple_ppirun] *)

(** What a global name of a module is bound to. *)
Inductive binding (S : Type) : Type :=
| Imported (qualified_name : string)
| TrainFn (f : hyper -> params -> directory S -> result state)
| EntryPoint.

Arguments Imported {S} qualified_name.
Arguments TrainFn {S} f.
Arguments EntryPoint {S}.

(** The functions of Python's [builtins] module. *)
Definition builtins : gset string :=
  list_to_set
    ["abs"; "aiter"; "all"; "anext"; "any"; "ascii"; "bin"; "bool";
     "breakpoint"; "bytearray"; "bytes"; "callable"; "chr"; "classmethod";
     "compile"; "complex"; "delattr"; "dict"; "dir"; "divmod"; "enumerate";
     "eval"; "exec"; "filter"; "float"; "format"; "frozenset"; "getattr";
     "globals"; "hasattr"; "hash"; "help"; "hex"; "id"; "input"; "int";
     "isinstance"; "issubclass"; "iter"; "len"; "list"; "locals"; "map";
     "max"; "memoryview"; "min"; "next"; "object"; "oct"; "open"; "ord";
     "pow"; "print"; "property"; "range"; "repr"; "reversed"; "round"; "set";
     "setattr"; "slice"; "sorted"; "staticmethod"; "str"; "sum"; "super";
     "tuple"; "type"; "vars"; "zip"; "__import__"].

(** The global names of [simple_ppi.py]: its imports (lines 1-14) and its
    two [def]s. *)
Definition simple_ppi_globals : gmap string (binding (loader * loader)) :=
  list_to_map
    [("os", Imported "os"); ("time", Imported "time");
     ("datetime", Imported "datetime"); ("np", Imported "numpy");
     ("tqdm", Imported "tqdm.tqdm"); ("torch", Imported "torch");
     ("optim", Imported "torch.optim");
     ("RobertaModel", Imported "fairseq.models.roberta.RobertaModel");
     ("RobertaConstrastiveHead",
      Imported "poplar.model.transformer.RobertaConstrastiveHead");
     ("InteractionDataDirectory",
      Imported "poplar.dataset.interactions.InteractionDataDirectory");
     ("encode", Imported "poplar.util.encode");
     ("tokenize", Imported "poplar.util.tokenize");
     ("SummaryWriter", Imported "torch.utils.tensorboard.SummaryWriter");
     ("clip_grad_norm_", Imported "torch.nn.utils.clip_grad_norm_");
     ("AdamW", Imported "transformers.AdamW");
     ("WarmupLinearSchedule", Imported "transformers.WarmupLinearSchedule");
     ("simple_ppitrain", TrainFn simple_ppitrain);
     ("simple_ppirun", EntryPoint)].

(** The global names of [ppi.py]: its imports (lines 1-19) and its two
    [def]s. *)
Definition ppi_globals : gmap string (binding (loader * loader * loader)) :=
  list_to_map
    [("os", Imported "os"); ("time", Imported "time");
     ("datetime", Imported "datetime"); ("np", Imported "numpy");
     ("tqdm", Imported "tqdm.tqdm"); ("torch", Imported "torch");
     ("optim", Imported "torch.optim");
     ("RobertaModel", Imported "fairseq.models.roberta.RobertaModel");
     ("PPIBinder", Imported "poplar.model.ppibinder.PPIBinder");
     ("InteractionDataDirectory",
      Imported "poplar.dataset.interactions.InteractionDataDirectory");
     ("ValidationDataset",
      Imported "poplar.dataset.interactions.ValidationDataset");
     ("NegativeSampler",
      Imported "poplar.dataset.interactions.NegativeSampler");
     ("encode", Imported "poplar.util.encode");
     ("tokenize", Imported "poplar.util.tokenize");
     ("pairwise_auc", Imported "poplar.evaluate.pairwise_auc");
     ("summarize_gradients", Imported "poplar.summary.summarize_gradients");
     ("checkpoint", Imported "poplar.summary.checkpoint");
     ("initialize_logging", Imported "poplar.summary.initialize_logging");
     ("SummaryWriter", Imported "torch.utils.tensorboard.SummaryWriter");
     ("clip_grad_norm_", Imported "torch.nn.utils.clip_grad_norm_");
     ("AdamW", Imported "transformers.AdamW");
     ("WarmupLinearSchedule", Imported "transformers.WarmupLinearSchedule");
     ("train", TrainFn train);
     ("ppi", EntryPoint)].

(** Loading a name that is not local to the function: the module's globals
    first, then the builtins, else [NameError]. *)
Definition load_global {S} (globals : gmap string (binding S))
    (name : string) : result (binding S) :=
  match globals !! name with
  | Some b => Ok b
  | None =>
      if decide (name ∈ builtins) then Ok (Imported ("builtins." +:+ name))
      else Raise (NameError name)
  end.

(** A computation that logs collaborator calls and may raise; the log up to
    the exception is kept. *)
Definition traced (A : Type) : Type := list event * result A.

Definition tbind {A B} (m : traced A) (k : A -> traced B) : traced B :=
  match m with
  | (l, Ok a) => let '(l', r) := k a in (l ++ l', r)
  | (l, Raise e) => (l, Raise e)
  end.

Definition tlift {A} (r : result A) : traced A := ([], r).

Definition temit (evs : list event) : traced unit := (evs, Ok tt).

(** Calling what a name is bound to as a training function. *)
Definition call_train {S} (b : binding S) (h : hyper) (m : params)
    (d : directory S) : traced state :=
  match b with
  | TrainFn f =>
      match f h m d with
      | Ok s => (log s, Ok s)
      | Raise e => ([], Raise e)
      end
  | _ => ([], Raise (TypeError "not a training function"))
  end.

(** The arguments of an entry point, with what the two external
    constructors it calls return: the pretrained model, and the interaction
    directory for a given batch size. *)
Record run_args (S : Type) : Type := {
  run_hyper : hyper;
  checkpoint_path : string;
  data_dir : string;
  run_batch_size : Z;
  from_pretrained : params;
  make_directory : Z -> directory S;
}.

Arguments run_hyper {S} r.
Arguments checkpoint_path {S} r.
Arguments data_dir {S} r.
Arguments run_batch_size {S} r.
Arguments from_pretrained {S} r.
Arguments make_directory {S} r.

Definition simple_ppirun (a : run_args (loader * loader)) : traced unit :=
  let G := simple_ppi_globals in
  let h := run_hyper a in
  tbind (tlift (load_global G "RobertaModel")) (fun _ =>
  let pretrained_model := from_pretrained a in
  tbind (temit [LoadPretrained (checkpoint_path a) (data_dir a);
                FreezeWeights]) (fun _ =>
  tbind (tlift (load_global G "torch")) (fun _ =>
  tbind (tlift (load_global G "max")) (fun _ =>
  let batch_size' :=
    Z.max (run_batch_size a) (run_batch_size a * n_gpu h) in
  tbind (tlift (load_global G "print")) (fun _ =>
  tbind (temit [Print [("batch_size", PInt batch_size')]]) (fun _ =>
  tbind (tlift (load_global G "InteractionDataDirectory")) (fun _ =>
  let interaction_directory := make_directory a batch_size' in
  tbind (temit [MakeDirectory]) (fun _ =>
  tbind (tlift (load_global G "train")) (fun train_ =>
  tbind (call_train train_ h pretrained_model interaction_directory)
    (fun finetuned_model =>
  tbind (tlift (load_global G "torch")) (fun _ =>
  temit [TorchSave (model_path h +:+ "last")]))))))))))).

(** *** Reading the log *)

Definition is_train_mode (ev : event) : bool :=
  match ev with TrainMode => true | _ => false end.

(** Every training batch is backpropagated exactly once. *)
Definition is_backward (ev : event) : bool :=
  match ev with Backward => true | _ => false end.

Definition is_optimizer_step (ev : event) : bool :=
  match ev with OptimizerStep => true | _ => false end.

Definition is_scheduler_step (ev : event) : bool :=
  match ev with SchedulerStep => true | _ => false end.


(** The records written to the Metrics Sink. *)
Definition is_add_scalar (ev : event) : bool :=
  match ev with AddScalar _ _ _ => true | _ => false end.

Definition is_add_hparams (ev : event) : bool :=
  match ev with AddHparams _ _ => true | _ => false end.

Definition count_ev (p : event -> bool) (l : list event) : nat :=
  length (List.filter p l).


(** The number of examples in a run of batches. *)
Definition examples (bs : list batch) : Z :=
  Z.of_nat (list_sum (map (fun b : batch => length b) bs)).

(** *** The Cross-Validation Pass in the spec's words

    The accumulated triplet loss, the accumulated positive-score sum and
    the number of examples whose anchor-positive score exceeds their
    anchor-negative score, over the test batches of a shard. *)




End Orchestrator.

Arguments total {S} d.
Arguments shards {S} d.
Arguments run_hyper {RT S} r.
Arguments checkpoint_path {RT S} r.
Arguments data_dir {RT S} r.
Arguments run_batch_size {RT S} r.
Arguments from_pretrained {RT S} r.
Arguments make_directory {RT S} r.
Arguments Imported {RT S} qualified_name.
Arguments TrainFn {RT S} f.
Arguments EntryPoint {RT S}.

End Train.

(** ** [poplar/train/ppi.py]: the entry point [ppi] *)

Module Entry.

Import Train.

Section Entry.

Context `{RT : Runtime}.

(** What [ppi] calls: the collaborator calls of the training functions, and
    three constructions of its own. *)
Inductive run_event : Type :=
| Collaborator (ev : event)
| MakeBinder
| WrapDataParallel
| MakeSampler.

(** A run of the entry point: the calls made, and how it ended. *)
Definition run (A : Type) : Type := list run_event * result A.

Definition rbind {A B} (m : run A) (k : A -> run B) : run B :=
  match m with
  | (l, Ok a) => let '(l', r) := k a in (l ++ l', r)
  | (l, Raise e) => (l, Raise e)
  end.

Definition rlift {A} (r : result A) : run A := ([], r).

Definition remit (evs : list run_event) : run unit := (evs, Ok tt).

(** Calling what a name is bound to as a training function: the calls it
    made are kept when it returns. *)
Definition rcall_train {S} (b : binding S) (h : hyper) (m : params)
    (d : directory S) : run state :=
  match b with
  | TrainFn f =>
      match f h m d with
      | Ok s => (map Collaborator (log s), Ok s)
      | Raise e => ([], Raise e)
      end
  | _ => ([], Raise (TypeError "not a training function"))
  end.

(** [ppi]: [a] carries the hyperparameters, the model the constructors
    return and the directory they build for a batch size. *)
Definition ppi (a : run_args (loader * loader * loader)) : run unit :=
  let G := ppi_globals in
  let h := run_hyper a in
  rbind (rlift (load_global G "RobertaModel")) (fun _ =>
  rbind (remit [Collaborator
                  (LoadPretrained (checkpoint_path a) (data_dir a))])
    (fun _ =>
  rbind (rlift (load_global G "int")) (fun _ =>
  rbind (rlift (load_global G "list")) (fun _ =>
  rbind (remit [Collaborator FreezeWeights]) (fun _ =>
  rbind (rlift (load_global G "PPIBinder")) (fun _ =>
  let ppi_model := from_pretrained a in
  rbind (remit [MakeBinder]) (fun _ =>
  rbind (rlift (load_global G "torch")) (fun _ =>
  rbind (rlift (load_global G "os")) (fun _ =>
  rbind (match environ h !! "CUDA_VISIBLE_DEVICES" with
         | Some visible =>
             rbind (rlift (load_global G "print")) (fun _ =>
             remit ([Collaborator
                       (Print [(visible, PStr "devices available")]);
                     Collaborator
                       (Print [("Utilizing", PInt (n_gpu h));
                               ("device", PStr (device h))])]
                    ++ (if 1 <? n_gpu h then [WrapDataParallel] else [])))
         | None => remit []
         end) (fun _ =>
  rbind (rlift (load_global G "max")) (fun _ =>
  let batch_size' :=
    Z.max (run_batch_size a) (run_batch_size a * n_gpu h) in
  rbind (rlift (load_global G "InteractionDataDirectory")) (fun _ =>
  let interaction_directory := make_directory a batch_size' in
  rbind (remit [Collaborator MakeDirectory]) (fun _ =>
  rbind (rlift (load_global G "NegativeSampler")) (fun _ =>
  rbind (remit [MakeSampler]) (fun _ =>
  rbind (rlift (load_global G "train")) (fun train_ =>
  rbind (rcall_train train_ h ppi_model interaction_directory)
    (fun finetuned_model =>
  rbind (rlift (load_global G "torch")) (fun _ =>
  remit [Collaborator (TorchSave (model_path h +:+ "last"))]
  )))))))))))))))))).

(** What [ppi] does before it calls [train]. *)
Definition ppi_setup (a : run_args (loader * loader * loader))
  : list run_event :=
  let h := run_hyper a in
  [Collaborator (LoadPretrained (checkpoint_path a) (data_dir a));
   Collaborator FreezeWeights;
   MakeBinder]
  ++ match environ h !! "CUDA_VISIBLE_DEVICES" with
     | Some visible =>
         [Collaborator (Print [(visible, PStr "devices available")]);
          Collaborator (Print [("Utilizing", PInt (n_gpu h));
                               ("device", PStr (device h))])]
         ++ (if 1 <? n_gpu h then [WrapDataParallel] else [])
     | None => []
     end
  ++ [Collaborator MakeDirectory; MakeSampler].

(** The directory [ppi] trains on. *)
Definition ppi_directory (a : run_args (loader * loader * loader))
  : directory (loader * loader * loader) :=
  make_directory a
    (Z.max (run_batch_size a) (run_batch_size a * n_gpu (run_hyper a))).

(** The collaborator calls of a run that satisfy a test. *)
Definition count_run (p : event -> bool) (l : list run_event) : nat :=
  length (List.filter (fun e => match e with
                                | Collaborator ev => p ev
                                | _ => false
                                end) l).

(** *** More readers of the training functions' state and log *)

Definition is_torch_save (ev : event) : bool :=
  match ev with TorchSave _ => true | _ => false end.


(** The number of training examples of a directory: what one epoch
    processes. *)
Definition epoch_examples {S} (train_loader : S -> loader)
    (d : directory S) : Z :=
  fold_right (fun sh acc => examples (batches (train_loader sh)) + acc)
             0 (shards d).

(** The number of training batches of a directory. *)
Definition epoch_batches {S} (train_loader : S -> loader)
    (d : directory S) : Z :=
  fold_right (fun sh acc => len (train_loader sh) + acc) 0 (shards d).


End Entry.

End Entry.

(** ** A runtime on exact rationals

    Sequences and tokens are integers, the similarity score of a pair is
    the partner's token, the loss of a batch is its size, and the model
    state counts the optimizer steps applied to it. *)

#[global] Instance QRuntime : Runtime := {|
  scalar := Q;
  s_of_Z := inject_Z;
  s_add := Qplus;
  s_sub := Qminus;
  s_div := fun a b => Qred (a / b);
  s_gtb := fun a b => negb (Qle_bool a b);
  s_mean := fun a => a;
  time_at := fun n => inject_Z (Z.of_nat n);
  sequence := Z;
  tokens := Z;
  tokenize := fun x => x;
  params := nat;
  forward := fun _ gpn => inject_Z (Z.of_nat (length gpn));
  predict := fun _ _ other => inject_Z other;
  backward := fun m _ _ => m;
  clip_grad_norm_ := fun _ m => m;
  optimizer_step := S;
  scheduler_step := fun m => m;
  zero_grad := fun m => m;
  summarize_gradients := fun _ _ last _ _ => last;
  checkpoint := fun _ _ last _ => last;
  pairwise_auc := fun _ _ => inject_Z 0;
|}.

Module Sample.

Import Train.

(** Default hyperparameters of the training functions, on the CPU with
    [CUDA_VISIBLE_DEVICES] set. *)
Definition hyper0 (max_steps gas : Z) : hyper :=
  {| emb_dimension := 100;
     max_steps := max_steps;
     learning_rate := (5 # 100000)%Q;
     warmup_steps := 1000;
     gradient_accumulation_steps := gas;
     clip_norm := inject_Z 10;
     summary_interval := 100;
     checkpoint_interval := 100;
     model_path := "model";
     device := "cpu";
     n_gpu := 0;
     environ := {[ "CUDA_VISIBLE_DEVICES" := "" ]} |}.

(** Two train batches of two triples, one test batch of two triples. *)
Definition train_loader : loader :=
  {| batches := [[(1, 5, 2); (2, 3, 4)]; [(3, 7, 1); (4, 2, 6)]];
     loader_batch_size := 2 |}.

Definition test_loader : loader :=
  {| batches := [[(5, 9, 3); (6, 1, 8)]]; loader_batch_size := 2 |}.

Definition empty_loader : loader :=
  {| batches := []; loader_batch_size := 2 |}.

Definition dir2 : directory (loader * loader) :=
  {| total := 4; shards := [(train_loader, test_loader)] |}.

Definition dir3 : directory (loader * loader * loader) :=
  {| total := 4; shards := [(train_loader, test_loader, empty_loader)] |}.


(** A call of the entry point. *)
Definition run0 : run_args (loader * loader) :=
  {| run_hyper := hyper0 10 1;
     checkpoint_path := "checkpoints/uniref50";
     data_dir := "data/uniref50";
     run_batch_size := 10;
     from_pretrained := 0%nat;
     make_directory := fun _ => dir2 |}.

End Sample.

(** ** Reading the token table backwards *)

Module Decode.

(** The symbol at a position of the alphabet string: the key that the token
    table maps to that token, when there is one. *)
Definition symbol_of_token (t : Z) : string :=
  nth (Z.to_nat t) (Dummy.chars Dummy.alphabet) "".

End Decode.

(** ** [poplar/model/dummy.py]: the two layers

    [extract_features] and [forward] of [DummyModel], on token tensors of
    one or two dimensions (a sequence, or a batch of sequences of one
    length; the tensor operations used reject the other ranks).  Tensors
    are nested lists that carry their shape; the entries are the runtime's
    scalars. *)

Module Net.

(** What the tensor library raises: an embedding index out of range, and
    shapes that cannot be multiplied. *)
Inductive torch_exn : Type :=
| IndexError
| RuntimeError.

Inductive outcome (A : Type) : Type :=
| Done (a : A)
| Fail (e : torch_exn).

Arguments Done {A} a.
Arguments Fail {A} e.

#[global] Instance outcome_ret : MRet outcome := fun A a => Done a.

#[global] Instance outcome_bind : MBind outcome := fun A B k r =>
  match r with
  | Done a => k a
  | Fail e => Fail e
  end.

(** Applying a fallible function to every element, left to right. *)
Fixpoint omap {A B} (f : A -> outcome B) (xs : list A) : outcome (list B) :=
  match xs with
  | [] => Done []
  | x :: xs' =>
      y ← f x;
      ys ← omap f xs';
      Done (y :: ys)
  end.

Section Layers.

Context `{RT : Runtime}.

(** The sizes given to [__init__] and the parameters of the two layers:
    [encoder = nn.Embedding(input_size, hidden_size)], with its weight
    matrix, and [decoder = nn.Linear(input_size, hidden_size)], as the
    function giving each of the [hidden_size] entries of its output on a
    vector of [input_size] entries. *)
Record DummyModel : Type := {
  input_size : nat;
  hidden_size : nat;
  max_length : Z;
  encoder_weight : nat -> nat -> scalar;
  decoder_entry : nat -> list scalar -> scalar;
}.

(** A tensor of tokens: [(n,)] or [(rows, cols)]. *)
Inductive long_tensor : Type :=
| Tokens1 (xs : list Z)
| Tokens2 (cols : nat) (rows : list (list Z)).

(** A tensor of floats of shape [(shape0, shape1, shape2)]. *)
Record tensor3 : Type := {
  shape0 : nat;
  shape1 : nat;
  shape2 : nat;
  cells : list (list (list scalar));
}.

(** A tensor of floats of two or three dimensions. *)
Inductive float_tensor : Type :=
| Float2 (n h : nat) (rows : list (list scalar))
| Float3 (t : tensor3).

(** The embedding of one token: the row of the weight matrix at that index,
    [IndexError] outside [0, input_size). *)
Definition embedding (m : DummyModel) (t : Z) : outcome (list scalar) :=
  if (0 <=? t) && (t <? Z.of_nat (input_size m))
  then Done (map (encoder_weight m (Z.to_nat t)) (seq 0 (hidden_size m)))
  else Fail IndexError.

(** [self.encoder(x)]: the shape of [x] with [hidden_size] appended. *)
Definition encoder (m : DummyModel) (x : long_tensor) : outcome float_tensor :=
  match x with
  | Tokens1 xs =>
      rows ← omap (embedding m) xs;
      Done (Float2 (length xs) (hidden_size m) rows)
  | Tokens2 cols rows =>
      ys ← omap (omap (embedding m)) rows;
      Done (Float3 {| shape0 := length rows;
                      shape1 := cols;
                      shape2 := hidden_size m;
                      cells := ys |})
  end.

(** [y.mean(1)] of one element of the batch: entry [j] is the sum of the
    [j]-th entries of its rows divided by their number. *)
Definition mean_rows (n h : nat) (rows : list (list scalar)) : list scalar :=
  map (fun j =>
         s_div (Train.s_sum (map (fun r => nth j r (s_of_Z 0)) rows))
               (s_of_Z (Z.of_nat n)))
      (seq 0 h).

(** [torch.zeros(b, q, h)] *)
Definition zeros (b q h : nat) : list (list (list scalar)) :=
  repeat (repeat (repeat (s_of_Z 0) h) q) b.

(** [DummyModel.extract_features] *)
Definition extract_features (m : DummyModel) (x : long_tensor)
  : outcome tensor3 :=
  y ← encoder m x;
  let y :=
    match y with
    | Float2 n h rows =>
        {| shape0 := 1; shape1 := n; shape2 := h; cells := [rows] |}
    | Float3 t => t
    end in
  let z := map (mean_rows (shape1 y) (shape2 y)) (cells y) in
  let z := map (fun v => [v]) z in
  let u :=
    {| shape0 := shape0 y;
       shape1 := (1 + shape1 y)%nat;
       shape2 := shape2 y;
       cells := map (fun zy => fst zy ++ snd zy) (combine z (cells y)) |} in
  if Z.of_nat (shape1 u) <? max_length m then
    let q := Z.to_nat (max_length m - Z.of_nat (shape1 u)) in
    let zos := zeros (shape0 u) q (shape2 u) in
    Done {| shape0 := shape0 u;
            shape1 := (shape1 u + q)%nat;
            shape2 := shape2 u;
            cells := map (fun uz => fst uz ++ snd uz) (combine (cells u) zos)
         |}
  else Done u.

(** [self.decoder(y)]: the last dimension of [y] has to be the layer's
    number of input features. *)
Definition decoder (m : DummyModel) (y : float_tensor) : outcome float_tensor :=
  let apply (v : list scalar) : list scalar :=
    map (fun o => decoder_entry m o v) (seq 0 (hidden_size m)) in
  match y with
  | Float2 n h rows =>
      if Nat.eqb h (input_size m)
      then Done (Float2 n (hidden_size m) (map apply rows))
      else Fail RuntimeError
  | Float3 t =>
      if Nat.eqb (shape2 t) (input_size m)
      then Done (Float3 {| shape0 := shape0 t;
                           shape1 := shape1 t;
                           shape2 := hidden_size m;
                           cells := map (map apply) (cells t) |})
      else Fail RuntimeError
  end.

(** [DummyModel.forward] *)
Definition forward (m : DummyModel) (x : long_tensor) : outcome float_tensor :=
  y ← encoder m x;
  decoder m y.

(** The sequences of a token tensor and their common length. *)
Definition token_rows (x : long_tensor) : list (list Z) :=
  match x with
  | Tokens1 xs => [xs]
  | Tokens2 _ rows => rows
  end.

Definition row_length (x : long_tensor) : nat :=
  match x with
  | Tokens1 xs => length xs
  | Tokens2 cols _ => cols
  end.

(** A token tensor is rectangular. *)
Definition rectangular (x : long_tensor) : Prop :=
  Forall (fun r => length r = row_length x) (token_rows x).

(** The cells of a tensor fill its shape. *)
Definition fills_shape (t : tensor3) : Prop :=
  length (cells t) = shape0 t /\
  Forall (fun b => length b = shape1 t /\
                   Forall (fun r : list scalar => length r = shape2 t) b)
         (cells t).

(** A token the embedding accepts. *)
Definition in_range (m : DummyModel) (t : Z) : Prop :=
  0 <= t < Z.of_nat (input_size m).

(** The row of the embedding matrix for a token. *)
Definition emb (m : DummyModel) (t : Z) : list scalar :=
  map (encoder_weight m (Z.to_nat t)) (seq 0 (hidden_size m)).

(** One sequence of the features: the mean of its embeddings, its
    embeddings, and rows of zeros up to [max_length]. *)
Definition feature_rows (m : DummyModel) (n : nat) (r : list Z)
  : list (list scalar) :=
  mean_rows n (hidden_size m) (map (emb m) r)
    :: map (emb m) r
    ++ repeat (repeat (s_of_Z 0) (hidden_size m))
              (Z.to_nat (max_length m - Z.of_nat (S n))).

(** The decoder on the encoder's output, token by token. *)
Definition decoded (m : DummyModel) (t : Z) : list scalar :=
  map (fun o => decoder_entry m o (emb m t)) (seq 0 (hidden_size m)).

End Layers.

End Net.

(** ** Sample encoder models *)

Module NetSample.

Import Net.

(** An encoder for the whole alphabet with embeddings of three entries,
    padded to five positions. *)
Definition dummy : DummyModel :=
  {| input_size := 27;
     hidden_size := 3;
     max_length := 5;
     encoder_weight := fun i j => inject_Z (Z.of_nat (i + j));
     decoder_entry := fun o v => nth o v 0%Q |}.

(** A model whose two sizes agree. *)
Definition square : DummyModel :=
  {| input_size := 4;
     hidden_size := 4;
     max_length := 5;
     encoder_weight := fun i j => inject_Z (Z.of_nat (i + j));
     decoder_entry := fun o v => nth o v 0%Q |}.

End NetSample.

(** ** Sample calls of the entry point [ppi] *)

Module EntrySample.

Import Train.

(** The settings of [Sample.hyper0] on a machine where
    [CUDA_VISIBLE_DEVICES] is not set. *)
Definition hyper_unset (max_steps gas : Z) : hyper :=
  {| emb_dimension := 100;
     max_steps := max_steps;
     learning_rate := (5 # 100000)%Q;
     warmup_steps := 1000;
     gradient_accumulation_steps := gas;
     clip_norm := inject_Z 10;
     summary_interval := 100;
     checkpoint_interval := 100;
     model_path := "model";
     device := "cpu";
     n_gpu := 0;
     environ := ∅ |}.

Definition run3 (max_steps gas : Z) : run_args (loader * loader * loader) :=
  {| run_hyper := Sample.hyper0 max_steps gas;
     checkpoint_path := "checkpoints/uniref50";
     data_dir := "data/uniref50";
     run_batch_size := 10;
     from_pretrained := 0%nat;
     make_directory := fun _ => Sample.dir3 |}.

(** A directory that reports no pairs. *)
Definition dir_empty : directory (loader * loader) :=
  {| total := 0; shards := [] |}.

End EntrySample.

(** * Properties *)

Example encode_MKV : Dummy.encode "M K V" = Ok [0; 14; 12; 23; 1].
Proof. vm_compute. reflexivity. Qed.

Example encode_Z : Dummy.encode "M Z" = Raise (KeyError "Z").
Proof. vm_compute. reflexivity. Qed.

(** The empty input has one symbol, the empty one, which is not a key. *)
Example encode_empty :
  Dummy.symbols "" = [""] /\ Dummy.encode "" = Raise (KeyError "").
Proof. split; vm_compute; reflexivity. Qed.

(** Two spaces in a row delimit an empty symbol. *)
Example encode_double_space : Dummy.encode "M  K" = Raise (KeyError "").
Proof. vm_compute. reflexivity. Qed.

(** ** The encoder *)

Module DummyFacts.

Import Dummy.

Lemma split_not_nil sep s : split sep s <> [].
Proof.
  destruct s as [|c s]; simpl; [discriminate|].
  destruct (Ascii.eqb c sep); [discriminate|].
  destruct (split sep s); discriminate.
Qed.

(** Splitting distributes over a separator between two strings. *)
Lemma split_app_sep sep s1 s2 :
  split sep (s1 +:+ String sep s2) = split sep s1 ++ split sep s2.
Proof.
  induction s1 as [|c s1 IH]; simpl.
  - rewrite Ascii.eqb_refl. reflexivity.
  - destruct (Ascii.eqb c sep); [now rewrite IH|].
    rewrite IH. pose proof (split_not_nil sep s1).
    destruct (split sep s1); [congruence|reflexivity].
Qed.

(** What [encode] looks up: the start symbol, the symbols of the input,
    the end symbol. *)
Lemma encode_pieces x :
  split " " ("^ " +:+ x +:+ " .") = "^" :: symbols x ++ ["."].
Proof.
  change ("^ " +:+ x +:+ " .") with ("^" +:+ String " " (x +:+ String " " ".")).
  rewrite !split_app_sep. reflexivity.
Qed.

Lemma py_map_app {A B} (f : A -> result B) xs ys :
  py_map f (xs ++ ys) =
  (us ← py_map f xs; vs ← py_map f ys; Ok (us ++ vs)).
Proof.
  induction xs as [|x xs IH]; simpl.
  - destruct (py_map f ys); reflexivity.
  - destruct (f x); simpl; [|reflexivity].
    rewrite IH. destruct (py_map f xs); simpl; [|reflexivity].
    destruct (py_map f ys); reflexivity.
Qed.

(** All keys present: every lookup succeeds, position by position. *)
Lemma py_map_getitem_ok d ks :
  Forall (fun k => is_Some (d !! k)) ks ->
  exists vs, py_map (getitem d) ks = Ok vs /\
             Forall2 (fun k v => d !! k = Some v) ks vs.
Proof.
  induction 1 as [|k ks [v Hv] _ (vs & E & F)].
  - exists []. split; [reflexivity|constructor].
  - exists (v :: vs). split; [|now constructor].
    assert (G : getitem d k = Ok v) by (unfold getitem; now rewrite Hv).
    cbn [py_map]. rewrite G, E. reflexivity.
Qed.

(** A missing key: the run of lookups ends in a [KeyError] on a missing
    key. *)
Lemma py_map_getitem_raise d ks :
  Exists (fun k => d !! k = None) ks ->
  exists k, py_map (getitem d) ks = Raise (KeyError k) /\ d !! k = None /\
            In k ks.
Proof.
  induction ks as [|k ks IH]; intros H; [inversion H|].
  cbn [py_map]. destruct (d !! k) as [v|] eqn:E.
  - assert (G : getitem d k = Ok v) by (unfold getitem; now rewrite E).
    destruct IH as (k' & R & N & I).
    { inversion H; subst; [congruence|assumption]. }
    exists k'. rewrite G, R. split; [reflexivity|]. split; [assumption|].
    now right.
  - assert (G : getitem d k = Raise (KeyError k))
      by (unfold getitem; now rewrite E).
    exists k. rewrite G. split; [reflexivity|]. split; [assumption|].
    now left.
Qed.

(** A character other than the separator survives in some piece. *)
Lemma contains_split c sep s :
  c <> sep -> contains c s = true ->
  Exists (fun w => contains c w = true) (split sep s).
Proof.
  intros Hc. induction s as [|d s IH]; simpl; [discriminate|].
  intros H. destruct (Ascii.eqb_spec d sep) as [->|Hd].
  - destruct (Ascii.eqb_spec sep c) as [->|_]; [congruence|].
    simpl in H. apply Exists_cons_tl. auto.
  - pose proof (split_not_nil sep s) as Hn.
    destruct (split sep s) as [|w ws]; [congruence|].
    destruct (Ascii.eqb_spec d c) as [->|_].
    + apply Exists_cons_hd. simpl. now rewrite Ascii.eqb_refl.
    + simpl in H. specialize (IH H). inversion IH; subst.
      * apply Exists_cons_hd. simpl. rewrite H1. apply orb_true_r.
      * now apply Exists_cons_tl.
Qed.

(** Joining symbols with single spaces and splitting again gives the
    symbols back, for at least one symbol and symbols free of spaces. *)
Lemma symbols_join syms :
  syms <> [] -> Forall (fun s => contains " " s = false) syms ->
  symbols (join syms) = syms.
Proof.
  unfold symbols. intros Hn H. induction H as [|s syms Hs H IH]; [congruence|].
  assert (Hone : split " " s = [s]).
  { clear -Hs. induction s as [|c s IH]; [reflexivity|]. simpl in *.
    apply orb_false_iff in Hs as [Hc Hs]. rewrite Hc, (IH Hs). reflexivity. }
  destruct syms as [|t syms]; [exact Hone|].
  change (join (s :: t :: syms)) with (s +:+ String " " (join (t :: syms))).
  rewrite split_app_sep, Hone, IH by discriminate. reflexivity.
Qed.

Lemma peptides_dom :
  dom peptides = list_to_set (chars "^.ABCDEFGHIJKLMNOPQRSTUVWXY").
Proof. vm_compute. reflexivity. Qed.

(** No key of the table contains the letter Z. *)
Lemma peptides_keys_no_Z k :
  is_Some (peptides !! k) -> contains "Z" k = false.
Proof.
  intros H. apply elem_of_dom in H. rewrite peptides_dom in H.
  apply elem_of_list_to_set in H.
  repeat (apply elem_of_cons in H as [->|H]; [reflexivity|]).
  inversion H.
Qed.

(** No key of the table contains a space. *)
Lemma peptides_keys_no_space k :
  is_Some (peptides !! k) -> contains " " k = false.
Proof.
  intros H. apply elem_of_dom in H. rewrite peptides_dom in H.
  apply elem_of_list_to_set in H.
  repeat (apply elem_of_cons in H as [->|H]; [reflexivity|]).
  inversion H.
Qed.

(** [encode] on any input, in terms of the pieces between single spaces. *)
Lemma encode_symbols x :
  (Forall (fun s => is_Some (peptides !! s)) (symbols x) ->
   exists interior,
     encode x = Ok (0 :: interior ++ [1]) /\
     Forall2 (fun s t => peptides !! s = Some t) (symbols x) interior) /\
  (Exists (fun s => peptides !! s = None) (symbols x) ->
   exists k, encode x = Raise (KeyError k) /\ peptides !! k = None).
Proof.
  unfold encode. cbv zeta. rewrite encode_pieces.
  assert (Hs : getitem peptides "^" = Ok 0) by (vm_compute; reflexivity).
  assert (He : getitem peptides "." = Ok 1) by (vm_compute; reflexivity).
  split.
  - intros Hall. destruct (py_map_getitem_ok _ _ Hall) as (vs & E & F).
    exists vs. split; [|exact F].
    cbn [py_map]. rewrite Hs, py_map_app, E. cbn [py_map]. rewrite He.
    reflexivity.
  - intros Hex.
    destruct (py_map_getitem_raise peptides ("^" :: symbols x ++ ["."]))
      as (k & R & N & _).
    { apply Exists_cons_tl, Exists_app. now left. }
    exists k. split; assumption.
Qed.

End DummyFacts.

(** C8 as the spec states it fails twice.  The empty string is a
    whitespace-delimited string of [L = 0] symbols, and [encode] raises on
    it instead of returning the two delimiters; and [M  K], two alphabet
    symbols delimited by two spaces, makes [encode] raise as well, because
    it cuts at every single space. *)
Lemma encode_needs_single_spaces :
  (Dummy.whitespace_symbols "" = [] /\
   Dummy.encode "" = Raise (KeyError "") /\
   ~ exists toks, Dummy.encode "" = Ok toks /\ length toks = (0 + 2)%nat) /\
  (Dummy.whitespace_symbols "M  K" = ["M"; "K"] /\
   Forall (fun s => is_Some (Dummy.peptides !! s))
          (Dummy.whitespace_symbols "M  K") /\
   Dummy.encode "M  K" = Raise (KeyError "") /\
   ~ exists toks, Dummy.encode "M  K" = Ok toks /\
                  length toks = (2 + 2)%nat).
Proof.
  assert (E0 : Dummy.encode "" = Raise (KeyError ""))
    by (vm_compute; reflexivity).
  assert (E2 : Dummy.encode "M  K" = Raise (KeyError ""))
    by (vm_compute; reflexivity).
  split; [split; [reflexivity|split; [exact E0|]]
         |split; [reflexivity|split; [|split; [exact E2|]]]].
  - intros (toks & H & _). rewrite E0 in H. discriminate H.
  - repeat constructor; vm_compute; eauto.
  - intros (toks & H & _). rewrite E2 in H. discriminate H.
Qed.

(** C8, amended. For every input made of [L >= 1] symbols joined by single
    spaces: when every symbol is a key of the token table, [encode] returns
    a token sequence of length [L + 2] that starts with the token of the
    start symbol and ends with the token of the end symbol (the tokens in
    between are those of the symbols, in order); when the symbols are free
    of spaces and one of them is not a key of the table, [encode] raises
    [KeyError] on a missing key. *)
Theorem encode_length_and_delimiters (syms : list string) (L : nat) :
  length syms = L -> (1 <= L)%nat ->
  (Forall (fun s => is_Some (Dummy.peptides !! s)) syms ->
   exists start stop interior,
     Dummy.peptides !! "^" = Some start /\
     Dummy.peptides !! "." = Some stop /\
     Dummy.encode (Dummy.join syms) = Ok (start :: interior ++ [stop]) /\
     length (start :: interior ++ [stop]) = (L + 2)%nat /\
     Forall2 (fun s t => Dummy.peptides !! s = Some t) syms interior) /\
  (Forall (fun s => Dummy.contains " " s = false) syms ->
   Exists (fun s => Dummy.peptides !! s = None) syms ->
   exists k, Dummy.encode (Dummy.join syms) = Raise (KeyError k) /\
             Dummy.peptides !! k = None).
Proof.
  intros HL H1.
  assert (Hne : syms <> []) by (intros ->; cbn in HL; lia).
  split.
  - intros Hall.
    assert (Hj : Dummy.symbols (Dummy.join syms) = syms).
    { apply DummyFacts.symbols_join; [exact Hne|].
      eapply Forall_impl; [exact Hall|].
      intros s. apply DummyFacts.peptides_keys_no_space. }
    destruct (DummyFacts.encode_symbols (Dummy.join syms)) as [Hok _].
    rewrite Hj in Hok. destruct (Hok Hall) as (vs & E & F).
    exists 0, 1, vs.
    split; [vm_compute; reflexivity|]. split; [vm_compute; reflexivity|].
    split; [exact E|]. split; [|exact F].
    apply Forall2_length in F. cbn [length]. rewrite length_app.
    cbn [length]. lia.
  - intros Hsp Hex.
    destruct (DummyFacts.encode_symbols (Dummy.join syms)) as [_ Hraise].
    rewrite (DummyFacts.symbols_join syms Hne Hsp) in Hraise.
    exact (Hraise Hex).
Qed.

Lemma encode_length_and_delimiters_witness :
  (exists start stop interior,
     Dummy.peptides !! "^" = Some start /\
     Dummy.peptides !! "." = Some stop /\
     Dummy.encode "M K V" = Ok (start :: interior ++ [stop]) /\
     length (start :: interior ++ [stop]) = (3 + 2)%nat /\
     Forall2 (fun s t => Dummy.peptides !! s = Some t)
             ["M"; "K"; "V"] interior) /\
  (exists k, Dummy.encode "M Z V" = Raise (KeyError k) /\
             Dummy.peptides !! k = None).
Proof.
  split.
  - apply (encode_length_and_delimiters ["M"; "K"; "V"] 3 eq_refl);
      [lia|repeat constructor; vm_compute; eauto].
  - apply (encode_length_and_delimiters ["M"; "Z"; "V"] 3 eq_refl);
      [lia|repeat constructor|].
    apply Exists_cons_tl, Exists_cons_hd. vm_compute. reflexivity.
Defined.

(** C10. The token table has exactly 27 entries, for [^], [.] and the
    letters A to Y: the 28 characters of the alphabet string are zipped with
    a range of 27, which leaves Z out; and [encode] raises [KeyError] on
    every input that contains the letter Z. *)
Theorem peptides_has_no_Z :
  String.length Dummy.alphabet = 28%nat /\
  length (Dummy.arange 27) = 27%nat /\
  size Dummy.peptides = 27%nat /\
  dom Dummy.peptides =
    list_to_set (Dummy.chars "^.ABCDEFGHIJKLMNOPQRSTUVWXY") /\
  Dummy.peptides !! "Z" = None /\
  forall x, Dummy.contains "Z" x = true ->
            exists k, Dummy.encode x = Raise (KeyError k) /\
                      Dummy.peptides !! k = None.
Proof.
  split; [reflexivity|]. split; [reflexivity|].
  split; [vm_compute; reflexivity|].
  split; [exact DummyFacts.peptides_dom|].
  split; [vm_compute; reflexivity|].
  intros x Hx. unfold Dummy.encode. cbv zeta.
  rewrite DummyFacts.encode_pieces.
  destruct (DummyFacts.py_map_getitem_raise Dummy.peptides
              ("^" :: Dummy.symbols x ++ ["."])) as (k & R & N & _).
  - apply Exists_cons_tl, Exists_app. left.
    apply (DummyFacts.contains_split "Z" " ") in Hx; [|discriminate].
    eapply Exists_impl; [exact Hx|].
    intros w Hw. simpl in Hw. destruct (Dummy.peptides !! w) eqn:E; [|reflexivity].
    rewrite DummyFacts.peptides_keys_no_Z in Hw; [discriminate|].
    rewrite E. eauto.
  - exists k. split; assumption.
Qed.

Lemma peptides_has_no_Z_witness :
  exists k, Dummy.encode "M Z K" = Raise (KeyError k) /\
            Dummy.peptides !! k = None.
Proof.
  destruct peptides_has_no_Z as (_ & _ & _ & _ & _ & H).
  apply (H "M Z K"). reflexivity.
Defined.

(** ** The training loops *)

Module TrainFacts.

Import Train.

Section Loops.

Context `{RT : Runtime}.

Lemma count_ev_app p (l1 l2 : list event) :
  count_ev p (l1 ++ l2) = (count_ev p l1 + count_ev p l2)%nat.
Proof. unfold count_ev. now rewrite List.filter_app, length_app. Qed.

Lemma for_each_app {A S} (body : S -> A -> result S) xs ys s :
  for_each body (xs ++ ys) s = (s' ← for_each body xs s; for_each body ys s').
Proof.
  revert s. induction xs as [|x xs IH]; intros s; [reflexivity|].
  cbn [for_each app]. destruct (body s x) as [s1|ex]; [apply IH|reflexivity].
Qed.

(** A loop whose body always returns and appends to the log: the loop
    returns, and what it appends is counted batch by batch. *)
Lemma for_each_extends {A} (body : state -> A -> result state)
    (p : event -> bool) (c : A -> nat) :
  (forall s x, exists s' evs,
      body s x = Ok s' /\ log s' = log s ++ evs /\ count_ev p evs = c x) ->
  forall xs s, exists s' evs,
      for_each body xs s = Ok s' /\ log s' = log s ++ evs /\
      count_ev p evs = list_sum (map c xs).
Proof.
  intros Hbody. induction xs as [|x xs IH]; intros s.
  - exists s, []. split; [reflexivity|]. split; [now rewrite app_nil_r|].
    reflexivity.
  - destruct (Hbody s x) as (s1 & ev1 & E1 & L1 & C1).
    destruct (IH s1) as (s2 & ev2 & E2 & L2 & C2).
    exists s2, (ev1 ++ ev2). cbn [for_each]. rewrite E1. split; [exact E2|].
    split; [now rewrite L2, L1, <- app_assoc|].
    rewrite count_ev_app, C1, C2. reflexivity.
Qed.

Lemma enumerate_from_length {A} (xs : list A) i :
  length (enumerate_from i xs) = length xs.
Proof.
  revert i. induction xs as [|x xs IH]; intros i; [reflexivity|].
  cbn [enumerate_from length]. now rewrite IH.
Qed.

Lemma range_length n : length (range n) = Z.to_nat n.
Proof. unfold range. now rewrite length_map, length_seq. Qed.

Lemma list_sum_const {A} (c : nat) (xs : list A) :
  list_sum (map (fun _ => c) xs) = (length xs * c)%nat.
Proof.
  induction xs as [|x xs IH]; [reflexivity|].
  change (list_sum (map (fun _ => c) (x :: xs)))
    with (c + list_sum (map (fun _ : A => c) xs))%nat.
  now rewrite IH.
Qed.


(** What one batch appends, for the two loop bodies. *)
Ltac batch_events :=
  unfold count_ev;
  repeat (rewrite List.filter_app, length_app);
  repeat match goal with
         | |- context [if ?c then _ else _] => destruct c
         end;
  reflexivity.

Ltac run_batch Hgas :=
  unfold pymod; apply Z.eqb_neq in Hgas; rewrite Hgas;
  do 2 eexists; split; [reflexivity|]; split; [reflexivity|].




Lemma train_batch_other h s (jb : Z * batch) (p : event -> bool) c :
  gradient_accumulation_steps h <> 0 ->
  In (p, c) [(is_backward, 1%nat); (is_train_mode, 0%nat);
             (is_add_hparams, 0%nat)] ->
  exists s' evs,
    train_batch h s jb = Ok s' /\ log s' = log s ++ evs /\
    count_ev p evs = c.
Proof.
  intros Hgas Hp. destruct jb as [j b]. unfold train_batch.
  run_batch Hgas.
  destruct Hp as [[= <- <-]|[[= <- <-]|[[= <- <-]|[]]]]; batch_events.
Qed.


(** A visit of a shard by [train] switches to training mode once and
    writes no hyperparameter summary. *)
Lemma train_shard_counts h s kd (p : event -> bool) (n : nat) :
  gradient_accumulation_steps h <> 0 ->
  (p, n) = (is_train_mode, 1%nat) \/ (p, n) = (is_add_hparams, 0%nat) ->
  exists s' evs,
    train_shard h s kd = Ok s' /\ log s' = log s ++ evs /\
    count_ev p evs = n.
Proof.
  intros Hgas Hp. destruct kd as [k [[tr te] va]]. unfold train_shard.
  match goal with
  | |- context [for_each _ _ ?s0] => set (st := s0)
  end.
  assert (Hb : forall s jb, exists s' evs,
             train_batch h s jb = Ok s' /\ log s' = log s ++ evs /\
             count_ev p evs = 0%nat).
  { intros s0 jb. apply train_batch_other; [assumption|].
    destruct Hp as [[= -> _]|[= -> _]]; simpl; auto. }
  destruct (for_each_extends (train_batch h) p (fun _ => 0%nat) Hb
              (enumerate (batches tr)) st) as (s1 & evs & E & L & C).
  rewrite E. cbn [mbind result_bind].
  eexists _, ([TrainMode; _] ++ evs ++ [_]).
  split; [reflexivity|]. cbn [log]. rewrite L. subst st. cbn [log].
  split; [now rewrite <- !app_assoc|].
  rewrite !count_ev_app, C, list_sum_const, Nat.mul_0_r.
  destruct Hp as [[= -> ->]|[= -> ->]]; reflexivity.
Qed.

(** [train] returns, having visited every shard once per epoch and written
    no hyperparameter summary. *)
Lemma train_counts h m d (p : event -> bool) (n : nat) :
  gradient_accumulation_steps h <> 0 -> total d <> 0 ->
  (p, n) = (is_train_mode, 1%nat) \/ (p, n) = (is_add_hparams, 0%nat) ->
  exists s,
    train h m d = Ok s /\
    count_ev p (log s) =
      (Z.to_nat (Z.max 1 (max_steps h) / total d)
       * (length (shards d) * n))%nat /\
    exists l, log s = l ++ [WriterClose].
Proof.
  intros Hgas HN Hp. unfold train, train_epochs, floordiv.
  apply Z.eqb_neq in Hgas as Hg, HN as Hn. rewrite Hg, Hn.
  cbn [mbind result_bind].
  match goal with
  | |- context [for_each _ _ ?s0] => set (st := s0)
  end.
  destruct (for_each_extends (train_epoch h d) p
              (fun _ => (length (shards d) * n)%nat)) with
    (xs := range (Z.max 1 (max_steps h) / total d)) (s := st)
    as (s1 & evs & E & L & C).
  { intros s e. unfold train_epoch.
    destruct (for_each_extends (train_shard h) p (fun _ => n)
                (fun s kd => train_shard_counts h s kd p n Hgas Hp)
                (enumerate (shards d)) s) as (s' & evs & E & L & C).
    exists s', evs. rewrite list_sum_const in C. unfold enumerate in C.
    rewrite enumerate_from_length in C. auto. }
  rewrite E. cbn [mbind result_bind]. eexists. split; [reflexivity|].
  cbn [log]. split; [|eauto].
  rewrite L, !count_ev_app, C, list_sum_const, range_length.
  subst st. destruct Hp as [[= -> ->]|[= -> ->]]; cbn; lia.
Qed.

(** When [simple_ppitrain] returns, the last two calls on the writer are the
    hyperparameter summary, with the four metrics, and the close. *)
Lemma simple_ppitrain_summary h m d s :
  simple_ppitrain h m d = Ok s ->
  exists l hparams,
    log s = l ++ [AddHparams hparams
                    [("train_error", err s); ("test_error", cv_err s);
                     ("TPR", tpr s); ("pos_score", pos_score s)];
                  WriterClose].
Proof.
  unfold simple_ppitrain. intros H.
  destruct (simple_epochs h d) as [epochs|]; [|discriminate].
  destruct (getenv h "CUDA_VISIBLE_DEVICES") as [v|]; [|discriminate].
  cbn [mbind result_bind] in H.
  match type of H with
  | context [for_each ?b ?xs ?s0] => destruct (for_each b xs s0) as [s1|]
  end; [|discriminate].
  cbn [mbind result_bind] in H. injection H as <-. cbn. eauto.
Qed.

(** With [max_steps] unset, [simple_ppitrain] plans exactly one epoch. *)
Lemma simple_epochs_default h d :
  gradient_accumulation_steps h <> 0 -> max_steps h <= 0 ->
  simple_epochs h d = Ok 1.
Proof.
  intros Hgas Hms. unfold simple_epochs, floordiv.
  apply Z.eqb_neq in Hgas. rewrite Hgas.
  destruct (0 <? max_steps h) eqn:E; [apply Z.ltb_lt in E; lia|reflexivity].
Qed.

(** With fewer steps than one epoch has pairs, [train] does nothing between
    opening and closing the log. *)
Lemma train_zero_epochs h m d :
  gradient_accumulation_steps h <> 0 -> total d <> 0 ->
  Z.max 1 (max_steps h) / total d <= 0 ->
  exists s,
    train h m d = Ok s /\ it s = 0 /\ model s = m /\
    log s = [InitLogging;
             Print [("Number of pairs", PInt (total d))];
             Print [("Number datasets", PInt (Z.of_nat (length (shards d))))];
             Print [("Number of epochs",
                     PInt (Z.max 1 (max_steps h) / total d))];
             WriterClose].
Proof.
  intros Hgas HN Hz. unfold train, train_epochs, floordiv.
  apply Z.eqb_neq in Hgas as Hg, HN as Hn. rewrite Hg, Hn.
  cbn [mbind result_bind]. unfold range.
  replace (Z.to_nat (Z.max 1 (max_steps h) / total d)) with 0%nat by lia.
  cbn [seq map for_each]. eexists. repeat split.
Qed.

(** *** The Cross-Validation Pass *)

(** One test batch. *)
Lemma cv_step h e k n a j (b : batch) :
  exists a1 evs,
    simple_cv_batch h e k n a (j, b) = Ok a1 /\
    log (cv_state a1) = log (cv_state a) ++ evs /\
    List.filter is_add_scalar evs = [] /\
    model (cv_state a1) = model (cv_state a) /\
    it (cv_state a1) = it (cv_state a) /\
    batch_size (cv_state a1) = batch_size (cv_state a) /\
    cv_err (cv_state a1) =
      s_add (cv_err (cv_state a))
            (forward (model (cv_state a)) (tokenize_batch b)) /\
    pos_score (cv_state a1) =
      s_add (pos_score (cv_state a))
            (s_sum (pred_pos (model (cv_state a)) (tokenize_batch b))) /\
    rank_counts a1 =
      rank_counts a + count_gt (pred_pos (model (cv_state a))
                                         (tokenize_batch b))
                               (pred_neg (model (cv_state a))
                                         (tokenize_batch b)).
Proof.
  eexists _, _. split; [reflexivity|]. cbn.
  split; [reflexivity|].
  split; [destruct (is_substring "cuda" (device h)); reflexivity|].
  repeat split.
Qed.

(** The loop over the test batches returns; it leaves the model, the step
    counter and the batch size alone, writes nothing to the Metrics Sink,
    and its three accumulators are the running sums. *)
Lemma cv_loop h e k n (bs : list batch) :
  forall j a, exists a' evs,
    for_each (simple_cv_batch h e k n) (enumerate_from j bs) a = Ok a' /\
    log (cv_state a') = log (cv_state a) ++ evs /\
    List.filter is_add_scalar evs = [] /\
    model (cv_state a') = model (cv_state a) /\
    it (cv_state a') = it (cv_state a) /\
    batch_size (cv_state a') = batch_size (cv_state a) /\
    cv_err (cv_state a') =
      fold_left (fun acc b =>
                   s_add acc (forward (model (cv_state a)) (tokenize_batch b)))
                bs (cv_err (cv_state a)) /\
    pos_score (cv_state a') =
      fold_left (fun acc b =>
                   s_add acc (s_sum (pred_pos (model (cv_state a))
                                              (tokenize_batch b))))
                bs (pos_score (cv_state a)) /\
    rank_counts a' =
      fold_left (fun acc b =>
                   acc + count_gt (pred_pos (model (cv_state a))
                                            (tokenize_batch b))
                                  (pred_neg (model (cv_state a))
                                            (tokenize_batch b)))
                bs (rank_counts a).
Proof.
  induction bs as [|b bs IH]; intros j a.
  - exists a, []. cbn. rewrite app_nil_r. repeat split.
  - cbn [enumerate_from for_each].
    destruct (cv_step h e k n a j b)
      as (a1 & ev1 & E1 & L1 & F1 & M1 & I1 & B1 & C1 & P1 & R1).
    rewrite E1. cbn [mbind result_bind].
    destruct (IH (j + 1) a1)
      as (a' & evs & E & L & F & M & I & B & C & P & R).
    exists a', (ev1 ++ evs). split; [exact E|].
    split; [rewrite L, L1, <- app_assoc; reflexivity|].
    split; [now rewrite List.filter_app, F1, F|].
    cbn [fold_left]. rewrite <- C1, <- P1, <- R1, <- M1.
    repeat split; congruence.
Qed.

Lemma count_gt_bounds (xs ys : list scalar) :
  0 <= count_gt xs ys <= Z.of_nat (length xs).
Proof.
  unfold count_gt. split; [lia|]. apply Nat2Z.inj_le.
  etransitivity; [apply List.filter_length_le|].
  rewrite length_combine. lia.
Qed.

(** The running count of ranked examples never exceeds the number of
    examples seen. *)
Lemma rank_counts_bounds (m : params) (bs : list batch) :
  forall r0,
    r0 <= fold_left (fun acc b =>
                       acc + count_gt (pred_pos m (tokenize_batch b))
                                      (pred_neg m (tokenize_batch b)))
                    bs r0
       <= r0 + examples bs.
Proof.
  unfold examples. induction bs as [|b bs IH]; intros r0.
  - cbn. lia.
  - cbn [fold_left map].
    change (list_sum (?a :: ?l)) with (a + list_sum l)%nat.
    pose proof (count_gt_bounds (pred_pos m (tokenize_batch b))
                                (pred_neg m (tokenize_batch b))) as Hc.
    assert (Hl : length (pred_pos m (tokenize_batch b)) = length b)
      by (unfold pred_pos, tokenize_batch; now rewrite !length_map).
    rewrite Hl in Hc.
    specialize (IH (r0 + count_gt (pred_pos m (tokenize_batch b))
                                  (pred_neg m (tokenize_batch b)))).
    lia.
Qed.

Lemma firstn_enumerate_from {A} n (xs : list A) :
  forall j, firstn n (enumerate_from j xs) = enumerate_from j (firstn n xs).
Proof.
  revert n. induction xs as [|x xs IH]; intros [|n] j; try reflexivity.
  cbn [enumerate_from firstn]. now rewrite IH.
Qed.


End Loops.

End TrainFacts.

(** ** The entry point *)

Module RunFacts.

Import Train.

Section Names.

Context `{RT : Runtime}.

Lemma train_unbound_in_simple_ppi :
  load_global simple_ppi_globals "train" = Raise (NameError "train").
Proof.
  unfold load_global.
  assert (E : simple_ppi_globals !! "train" = None).
  { unfold simple_ppi_globals. apply not_elem_of_list_to_map_1.
    cbn [fmap list_fmap fst]. intros H.
    repeat (apply elem_of_cons in H as [H|H]; [discriminate H|]).
    inversion H. }
  rewrite E. destruct (decide ("train" ∈ builtins)) as [H|H]; [|reflexivity].
  exfalso. revert H. unfold builtins. rewrite elem_of_list_to_set. intros H.
  repeat (apply elem_of_cons in H as [H|H]; [discriminate H|]).
  inversion H.
Qed.

Lemma simple_ppi_imports :
  load_global simple_ppi_globals "RobertaModel"
    = Ok (Imported "fairseq.models.roberta.RobertaModel") /\
  load_global simple_ppi_globals "torch" = Ok (Imported "torch") /\
  load_global simple_ppi_globals "InteractionDataDirectory"
    = Ok (Imported "poplar.dataset.interactions.InteractionDataDirectory") /\
  load_global simple_ppi_globals "max" = Ok (Imported "builtins.max") /\
  load_global simple_ppi_globals "print" = Ok (Imported "builtins.print").
Proof. repeat split; vm_compute; reflexivity. Qed.

(** In [ppi.py] the same name is bound, to the training function defined
    there. *)
Lemma train_bound_in_ppi :
  load_global ppi_globals "train" = Ok (TrainFn train).
Proof. reflexivity. Qed.

End Names.

Example simple_ppirun_sample :
  snd (simple_ppirun Sample.run0) = Raise (NameError "train") /\
  fst (simple_ppirun Sample.run0) =
    [LoadPretrained "checkpoints/uniref50" "data/uniref50"; FreezeWeights;
     Print [("batch_size", PInt 10)]; MakeDirectory].
Proof. split; vm_compute; reflexivity. Qed.

End RunFacts.

(** ** The claims about the orchestrators *)

(** A run that evaluates to a value with a property returns such a value. *)
Lemma result_ok_ex {A} (r : result A) (P : A -> Prop) :
  match r with Ok a => P a | Raise _ => False end ->
  exists a, r = Ok a /\ P a.
Proof. destruct r as [a|]; [eauto|tauto]. Qed.

(** C1 (the code departs from it). With [max_steps = 0], [train] of [ppi.py]
    on a directory of one shard with [total() = 4] pairs plans
    [max(1, 0) // 4 = 0] epochs: it returns without visiting the shard or
    processing a training batch.  On the same shard [simple_ppitrain] makes
    the one full pass that the docstring of both functions announces. *)
Theorem train_unset_max_steps_runs_no_epoch :
  Train.total Sample.dir3 = 4 /\
  Train.train_epochs (Sample.hyper0 0 1) Sample.dir3 = Ok 0 /\
  (exists s,
     Train.train (Sample.hyper0 0 1) 0%nat Sample.dir3 = Ok s /\
     Train.count_ev Train.is_train_mode (Train.log s) = 0%nat /\
     Train.count_ev Train.is_backward (Train.log s) = 0%nat /\
     Train.it s = 0) /\
  (exists s,
     Train.simple_ppitrain (Sample.hyper0 0 1) 0%nat Sample.dir2 = Ok s /\
     Train.count_ev Train.is_train_mode (Train.log s) = 1%nat /\
     Train.count_ev Train.is_backward (Train.log s) = 2%nat /\
     Train.it s = 4).
Proof.
  split; [reflexivity|]. split; [vm_compute; reflexivity|].
  split; apply result_ok_ex; vm_compute; repeat split.
Qed.

(** C2. In [train] of [ppi.py], with a non-zero accumulation factor and a
    non-zero pair count [N], the number of epochs is
    [max(1, max_steps) // N]: the run returns having visited every shard of
    the directory that many times.  When [0 < max_steps < N] no epoch runs:
    no batch is backpropagated, no optimizer or scheduler step is made, the
    step counter stays at 0 and the model is returned as it was given. *)
Theorem train_epochs_truncate `{RT : Runtime}
    (h : Train.hyper) (m : params)
    (d : Train.directory (Train.loader * Train.loader * Train.loader)) :
  Train.gradient_accumulation_steps h <> 0 -> Train.total d <> 0 ->
  Train.train_epochs h d = Ok (Z.max 1 (Train.max_steps h) / Train.total d) /\
  (exists s,
     Train.train h m d = Ok s /\
     Train.count_ev Train.is_train_mode (Train.log s) =
       (Z.to_nat (Z.max 1 (Train.max_steps h) / Train.total d)
        * length (Train.shards d))%nat) /\
  (0 < Train.max_steps h < Train.total d ->
   Z.max 1 (Train.max_steps h) / Train.total d = 0 /\
   exists s,
     Train.train h m d = Ok s /\
     Train.count_ev Train.is_train_mode (Train.log s) = 0%nat /\
     Train.count_ev Train.is_backward (Train.log s) = 0%nat /\
     Train.count_ev Train.is_optimizer_step (Train.log s) = 0%nat /\
     Train.count_ev Train.is_scheduler_step (Train.log s) = 0%nat /\
     Train.it s = 0 /\ Train.model s = m).
Proof.
  intros Hgas HN. split; [|split].
  - unfold Train.train_epochs, floordiv.
    apply Z.eqb_neq in Hgas, HN. now rewrite Hgas, HN.
  - destruct (TrainFacts.train_counts h m d Train.is_train_mode 1 Hgas HN)
      as (s & E & C & _); [now left|].
    exists s. split; [exact E|]. rewrite C. lia.
  - intros Hsub.
    assert (Hz : Z.max 1 (Train.max_steps h) / Train.total d = 0)
      by (apply Z.div_small; lia).
    split; [exact Hz|].
    destruct (TrainFacts.train_zero_epochs h m d Hgas HN) as (s & E & I & M & L);
      [lia|].
    exists s. rewrite L. repeat split; assumption.
Qed.

Lemma train_epochs_truncate_witness :
  Train.train_epochs (Sample.hyper0 3 1) Sample.dir3 = Ok 0 /\
  exists s,
    Train.train (Sample.hyper0 3 1) 0%nat Sample.dir3 = Ok s /\
    Train.count_ev Train.is_backward (Train.log s) = 0%nat /\
    Train.model s = 0%nat.
Proof.
  destruct (train_epochs_truncate (Sample.hyper0 3 1) 0%nat Sample.dir3)
    as (E & _ & Hsub); [discriminate|discriminate|].
  split; [exact E|].
  destruct Hsub as (_ & s & R & _ & B & _ & _ & _ & M); [split; reflexivity|].
  exists s. repeat split; assumption.
Defined.



(** C4. The Cross-Validation Pass of [simple_ppitrain] over a test loader
    that yields no batch returns without raising and appends nothing to the
    log: no [test_error], [TPR] or [pos_score] record is written. *)
Theorem empty_test_shard_skips_report `{RT : Runtime}
    (h : Train.hyper) (e k bs : Z) (s : Train.state) :
  exists s',
    Train.simple_cross_validation h e k
      {| Train.batches := []; Train.loader_batch_size := bs |} s = Ok s' /\
    Train.log s' = Train.log s /\
    Train.tpr s' = Train.tpr s.
Proof. eexists. split; [reflexivity|]. split; reflexivity. Qed.




(** C6 (the code departs from it). [train] of [ppi.py], run for one epoch
    over the sample directory, returns the model it trained (two optimizer
    steps) and closes the writer as its last call, but writes no
    hyperparameter summary: the [add_hparams] call is commented out.
    [simple_ppitrain] on the same data returns the trained model after
    writing the summary, with the four metrics, just before the close. *)
Theorem train_writes_no_summary :
  (exists s,
     Train.train (Sample.hyper0 4 1) 0%nat Sample.dir3 = Ok s /\
     Train.model s = 2%nat /\
     Train.count_ev Train.is_add_hparams (Train.log s) = 0%nat /\
     exists l, Train.log s = l ++ [Train.WriterClose]) /\
  (exists s,
     Train.simple_ppitrain (Sample.hyper0 4 1) 0%nat Sample.dir2 = Ok s /\
     Train.model s = 2%nat /\
     Train.count_ev Train.is_add_hparams (Train.log s) = 1%nat /\
     exists l hparams,
       Train.log s =
         l ++ [Train.AddHparams hparams
                 [("train_error", Train.err s);
                  ("test_error", Train.cv_err s);
                  ("TPR", Train.tpr s);
                  ("pos_score", Train.pos_score s)];
               Train.WriterClose]).
Proof.
  split.
  - destruct (TrainFacts.train_counts (Sample.hyper0 4 1) 0%nat Sample.dir3
                Train.is_add_hparams 0) as (s & E & C & L);
      [discriminate|discriminate|now right|].
    exists s. split; [exact E|]. split; [|split; [rewrite C; lia|exact L]].
    destruct (result_ok_ex
                (Train.train (Sample.hyper0 4 1) 0%nat Sample.dir3)
                (fun s => Train.model s = 2%nat)) as (s2 & E2 & M);
      [vm_compute; reflexivity|].
    congruence.
  - destruct (result_ok_ex
                (Train.simple_ppitrain (Sample.hyper0 4 1) 0%nat Sample.dir2)
                (fun s => Train.model s = 2%nat /\
                          Train.count_ev Train.is_add_hparams (Train.log s)
                          = 1%nat)) as (s & E & M & C);
      [vm_compute; split; reflexivity|].
    exists s. split; [exact E|]. split; [exact M|]. split; [exact C|].
    exact (TrainFacts.simple_ppitrain_summary _ _ _ _ E).
Qed.

(** C7. At every point of a Cross-Validation Pass, that is after any number
    [n] of iterations of its loop over the test batches, [rank_counts] lies
    between 0 and the number of test examples in the batches processed so
    far. *)
Theorem rank_counts_at_most_examples `{RT : Runtime}
    (h : Train.hyper) (e k : Z) (test_dataloader : Train.loader)
    (s : Train.state) (n : nat) :
  exists a,
    Train.for_each (Train.simple_cv_batch h e k (Train.len test_dataloader))
      (firstn n (Train.enumerate (Train.batches test_dataloader)))
      (Train.cv_init s test_dataloader) = Ok a /\
    0 <= Train.rank_counts a
      <= Train.examples (firstn n (Train.batches test_dataloader)).
Proof.
  unfold Train.enumerate. rewrite TrainFacts.firstn_enumerate_from.
  destruct (TrainFacts.cv_loop h e k (Train.len test_dataloader)
              (firstn n (Train.batches test_dataloader)) 0
              (Train.cv_init s test_dataloader))
    as (a & evs & E & _ & _ & _ & _ & _ & _ & _ & R).
  exists a. split; [exact E|]. rewrite R.
  apply (TrainFacts.rank_counts_bounds _ _ 0).
Qed.

(** C9. On every input [simple_ppirun] loads the pretrained model,
    constructs the interaction directory and then raises [NameError] for
    [train]: that name is bound neither among the globals of
    [simple_ppi.py], where the training function is [simple_ppitrain], nor
    in the builtins (in [ppi.py] it is bound).  The run never returns
    normally, no training loop is entered and nothing is saved. *)
Theorem simple_ppirun_raises_name_error `{RT : Runtime}
    (a : Train.run_args (Train.loader * Train.loader)) :
  Train.load_global Train.simple_ppi_globals "train"
    = Raise (NameError "train") /\
  Train.load_global Train.simple_ppi_globals "simple_ppitrain"
    = Ok (Train.TrainFn Train.simple_ppitrain) /\
  Train.load_global Train.ppi_globals "train"
    = Ok (Train.TrainFn Train.train) /\
  Train.simple_ppirun a =
    ([Train.LoadPretrained (Train.checkpoint_path a) (Train.data_dir a);
      Train.FreezeWeights;
      Train.Print
        [("batch_size",
          Train.PInt
            (Z.max (Train.run_batch_size a)
                   (Train.run_batch_size a
                    * Train.n_gpu (Train.run_hyper a))))];
      Train.MakeDirectory],
     Raise (NameError "train")) /\
  (forall u, snd (Train.simple_ppirun a) <> Ok u) /\
  Train.count_ev Train.is_train_mode (fst (Train.simple_ppirun a)) = 0%nat /\
  Train.count_ev Train.is_backward (fst (Train.simple_ppirun a)) = 0%nat /\
  Train.count_ev Train.is_optimizer_step (fst (Train.simple_ppirun a))
    = 0%nat.
Proof.
  pose proof RunFacts.train_unbound_in_simple_ppi as Htrain.
  destruct RunFacts.simple_ppi_imports as (H1 & H2 & H3 & H4 & H5).
  split; [exact Htrain|]. split; [reflexivity|].
  split; [exact RunFacts.train_bound_in_ppi|].
  assert (Hrun :
    Train.simple_ppirun a =
      ([Train.LoadPretrained (Train.checkpoint_path a) (Train.data_dir a);
        Train.FreezeWeights;
        Train.Print
          [("batch_size",
            Train.PInt
              (Z.max (Train.run_batch_size a)
                     (Train.run_batch_size a
                      * Train.n_gpu (Train.run_hyper a))))];
        Train.MakeDirectory],
       Raise (NameError "train"))).
  { unfold Train.simple_ppirun. cbv zeta.
    rewrite H1, H2, H3, H4, H5, Htrain. reflexivity. }
  split; [exact Hrun|]. rewrite Hrun.
  split; [discriminate|]. split; [reflexivity|]. split; reflexivity.
Qed.

(** * Further properties *)

(** ** The encoder, beyond the claims *)

Module EncodeFacts.

Import Dummy.

(** Every entry of the table: a one-character key, a token below 27, and
    the key is the symbol at the token's position in the alphabet string. *)
Lemma peptides_entry k v :
  peptides !! k = Some v ->
  0 <= v < 27 /\ Decode.symbol_of_token v = k /\ String.length k = 1%nat.
Proof.
  intros H. assert (Hd : is_Some (peptides !! k)) by eauto.
  apply elem_of_dom in Hd. rewrite DummyFacts.peptides_dom in Hd.
  apply elem_of_list_to_set in Hd.
  repeat (apply elem_of_cons in Hd as [->|Hd];
          [vm_compute in H; injection H as <-;
           split; [lia|split; reflexivity]|]).
  inversion Hd.
Qed.

Lemma peptides_inj k1 k2 v :
  peptides !! k1 = Some v -> peptides !! k2 = Some v -> k1 = k2.
Proof.
  intros H1 H2. apply peptides_entry in H1 as (_ & <- & _).
  apply peptides_entry in H2 as (_ & <- & _). reflexivity.
Qed.

(** Splitting at single spaces loses nothing: joining the pieces with
    single spaces gives the string back. *)
Lemma join_split x : join (split " " x) = x.
Proof.
  induction x as [|c x IH]; [reflexivity|].
  cbn [split]. pose proof (DummyFacts.split_not_nil " " x) as Hn.
  destruct (Ascii.eqb_spec c " ") as [->|Hc].
  - destruct (split " " x) as [|w ws]; [congruence|].
    cbn [join]. rewrite <- IH. reflexivity.
  - destruct (split " " x) as [|w ws]; [congruence|].
    rewrite <- IH. destruct ws; reflexivity.
Qed.

(** The lookups stop at the leftmost missing key. *)
Lemma py_map_getitem_first d pre k post :
  Forall (fun s => is_Some (d !! s)) pre -> d !! k = None ->
  py_map (getitem d) (pre ++ k :: post) = Raise (KeyError k).
Proof.
  intros Hpre Hk. induction Hpre as [|s pre [v Hv] _ IH].
  - cbn [app py_map]. unfold getitem. now rewrite Hk.
  - cbn [app py_map].
    assert (G : getitem d s = Ok v) by (unfold getitem; now rewrite Hv).
    rewrite G. cbn [mbind result_bind]. now rewrite IH.
Qed.

Lemma py_map_getitem_inv d ks vs :
  py_map (getitem d) ks = Ok vs ->
  Forall2 (fun k v => d !! k = Some v) ks vs.
Proof.
  revert vs. induction ks as [|k ks IH]; intros vs H.
  - injection H as <-. constructor.
  - cbn [py_map] in H. destruct (d !! k) as [v|] eqn:E.
    + assert (G : getitem d k = Ok v) by (unfold getitem; now rewrite E).
      rewrite G in H. cbn [mbind result_bind] in H.
      destruct (py_map (getitem d) ks) as [ws|];
        cbn [mbind result_bind] in H; [|discriminate H].
      injection H as <-. constructor; [exact E|now apply IH].
    + assert (G : getitem d k = Raise (KeyError k))
        by (unfold getitem; now rewrite E).
      rewrite G in H. discriminate H.
Qed.

(** Whenever [encode] returns: the delimiters around the tokens of the
    pieces. *)
Lemma encode_inv x toks :
  encode x = Ok toks ->
  exists interior,
    toks = 0 :: interior ++ [1] /\
    Forall2 (fun s t => peptides !! s = Some t) (symbols x) interior.
Proof.
  unfold encode. cbv zeta. rewrite DummyFacts.encode_pieces. intros H.
  apply py_map_getitem_inv in H.
  inversion H as [|k v ks vs Hs Hrest]; subst.
  apply Forall2_app_inv_l in Hrest as (mid & lst & Hmid & Hlst & ->).
  inversion Hlst as [|k2 v2 ks2 vs2 He Hnil]; subst.
  inversion Hnil; subst.
  vm_compute in Hs. injection Hs as <-.
  vm_compute in He. injection He as <-.
  exists mid. split; [reflexivity|exact Hmid].
Qed.

End EncodeFacts.

Lemma leftmost_missing (d : gmap string Z) (ks : list string) :
  Forall (fun s => is_Some (d !! s)) ks \/
  exists pre k post,
    ks = pre ++ k :: post /\ Forall (fun s => is_Some (d !! s)) pre /\
    d !! k = None.
Proof.
  induction ks as [|k ks [IH|(pre & k' & post & -> & Hpre & Hk)]].
  - left. constructor.
  - destruct (d !! k) as [v|] eqn:E.
    + left. constructor; [rewrite E; eauto|exact IH].
    + right. exists [], k, ks. repeat split; [constructor|exact E].
  - destruct (d !! k) as [v|] eqn:E.
    + right. exists (k :: pre), k', post.
      repeat split; [constructor; [rewrite E; eauto|exact Hpre]|exact Hk].
    + right. exists [], k, (pre ++ k' :: post).
      repeat split; [constructor|exact E].
Qed.

(** X1. What [encode] does on any input, with its pieces those between
    single spaces: either every piece is a key of the token table and
    [encode] returns two more tokens than there are pieces, or it raises
    [KeyError] carrying the leftmost piece that is not a key.  It never ends
    otherwise. *)
Theorem encode_returns_or_reports_leftmost (x : string) :
  (Forall (fun s => is_Some (Dummy.peptides !! s)) (Dummy.symbols x) /\
   exists toks,
     Dummy.encode x = Ok toks /\
     length toks = (length (Dummy.symbols x) + 2)%nat) \/
  (exists pre k post,
     Dummy.symbols x = pre ++ k :: post /\
     Forall (fun s => is_Some (Dummy.peptides !! s)) pre /\
     Dummy.peptides !! k = None /\
     Dummy.encode x = Raise (KeyError k)).
Proof.
  destruct (leftmost_missing Dummy.peptides (Dummy.symbols x))
    as [Hall|(pre & k & post & E & Hpre & Hk)].
  - left. split; [exact Hall|].
    destruct (DummyFacts.encode_symbols x) as [Hok _].
    destruct (Hok Hall) as (vs & R & F). eexists. split; [exact R|].
    apply Forall2_length in F. cbn [length]. rewrite length_app.
    cbn [length]. lia.
  - right. exists pre, k, post. repeat split; try assumption.
    unfold Dummy.encode. cbv zeta. rewrite DummyFacts.encode_pieces.
    rewrite E.
    rewrite <- app_assoc. cbn [app].
    apply (EncodeFacts.py_map_getitem_first Dummy.peptides ("^" :: pre) k
             (post ++ ["."])); [|exact Hk].
    constructor; [vm_compute; eauto|exact Hpre].
Qed.

(** X2. Every symbol must be exactly one character: when some piece
    between single spaces is empty (a leading, trailing or doubled space)
    or longer than one character (residues written without spaces),
    [encode] raises [KeyError]. *)
Theorem encode_rejects_pieces_not_one_character (x : string) :
  Exists (fun s => String.length s <> 1%nat) (Dummy.symbols x) ->
  exists k, Dummy.encode x = Raise (KeyError k) /\
            Dummy.peptides !! k = None.
Proof.
  intros H. destruct (DummyFacts.encode_symbols x) as [_ Hraise].
  apply Hraise. eapply Exists_impl; [exact H|].
  intros s Hs. destruct (Dummy.peptides !! s) as [v|] eqn:E; [|reflexivity].
  apply EncodeFacts.peptides_entry in E as (_ & _ & Hl). contradiction.
Qed.

Lemma encode_rejects_pieces_not_one_character_witness :
  exists k, Dummy.encode "MK V " = Raise (KeyError k) /\
            Dummy.peptides !! k = None.
Proof.
  apply (encode_rejects_pieces_not_one_character "MK V ").
  apply Exists_cons_hd. discriminate.
Defined.

(** X3. A character that is not a space and is not one of the 27 keys
    (a lower-case letter, a digit, a tab, the letter Z) anywhere in the
    input makes [encode] raise [KeyError]. *)
Theorem encode_rejects_foreign_characters (x : string) (c : ascii) :
  Dummy.contains c x = true -> c <> " "%char ->
  Dummy.peptides !! String c "" = None ->
  exists k, Dummy.encode x = Raise (KeyError k) /\
            Dummy.peptides !! k = None.
Proof.
  intros Hc Hsp Hkey. destruct (DummyFacts.encode_symbols x) as [_ Hraise].
  apply Hraise. apply (DummyFacts.contains_split c " ") in Hc; [|exact Hsp].
  eapply Exists_impl; [exact Hc|].
  intros w Hw. cbn beta in Hw.
  destruct (Dummy.peptides !! w) as [v|] eqn:E; [|reflexivity].
  exfalso. apply EncodeFacts.peptides_entry in E as E'.
  destruct E' as (_ & _ & Hl).
  destruct w as [|d [|d' w]]; try discriminate Hl.
  cbn in Hw. rewrite orb_false_r in Hw. apply Ascii.eqb_eq in Hw. subst d.
  congruence.
Qed.

Lemma encode_rejects_foreign_characters_witness :
  exists k, Dummy.encode "M k V" = Raise (KeyError k) /\
            Dummy.peptides !! k = None.
Proof.
  apply (encode_rejects_foreign_characters "M k V" "k");
    [reflexivity|discriminate|vm_compute; reflexivity].
Defined.

(** X4. [encode] loses nothing: reading the tokens between the two
    delimiters back through the alphabet string and joining the symbols with
    single spaces gives the input back, so two inputs with the same token
    sequence are the same string. *)
Theorem encode_round_trip (x y : string) (toks : list Z) :
  Dummy.encode x = Ok toks ->
  Dummy.join (map Decode.symbol_of_token (removelast (tl toks))) = x /\
  (Dummy.encode y = Ok toks -> y = x).
Proof.
  assert (Hrt : forall z ts, Dummy.encode z = Ok ts ->
            Dummy.join (map Decode.symbol_of_token (removelast (tl ts))) = z).
  { intros z ts H. apply EncodeFacts.encode_inv in H as (mid & -> & F).
    cbn [tl]. rewrite removelast_last.
    assert (E : map Decode.symbol_of_token mid = Dummy.symbols z).
    { clear -F. induction F as [|s t ss ts Hs _ IH]; [reflexivity|].
      cbn [map]. rewrite IH.
      apply EncodeFacts.peptides_entry in Hs as (_ & -> & _). reflexivity. }
    rewrite E. apply EncodeFacts.join_split. }
  intros Hx. split; [now apply Hrt|].
  intros Hy. rewrite <- (Hrt x toks Hx). symmetry. now apply Hrt.
Qed.

Lemma encode_round_trip_witness :
  Dummy.join (map Decode.symbol_of_token (removelast (tl [0; 14; 12; 23; 1])))
    = "M K V" /\
  (Dummy.encode "M K V" = Ok [0; 14; 12; 23; 1] -> "M K V" = "M K V").
Proof.
  apply (encode_round_trip "M K V" "M K V" [0; 14; 12; 23; 1]).
  vm_compute. reflexivity.
Defined.

(** X5. Every token sequence [encode] returns has at least three tokens,
    all of them in the range of the table, from 0 to 26. *)
Theorem encode_tokens_in_range (x : string) (toks : list Z) :
  Dummy.encode x = Ok toks ->
  (3 <= length toks)%nat /\ Forall (fun t => 0 <= t < 27) toks.
Proof.
  intros H. apply EncodeFacts.encode_inv in H as (mid & -> & F).
  split.
  - apply Forall2_length in F. cbn [length]. rewrite length_app.
    pose proof (DummyFacts.split_not_nil " " x) as Hn.
    unfold Dummy.symbols in F. destruct (Dummy.split " " x); [congruence|].
    cbn [length] in *. lia.
  - constructor; [lia|]. apply Forall_app. split; [|repeat constructor; lia].
    clear -F. induction F as [|s t ss ts Hs _ IH]; constructor; [|exact IH].
    now apply EncodeFacts.peptides_entry in Hs as (? & _).
Qed.

Lemma encode_tokens_in_range_witness :
  (3 <= length [0%Z; 14%Z; 12%Z; 23%Z; 1%Z])%nat /\
  Forall (fun t => 0 <= t < 27) [0; 14; 12; 23; 1].
Proof.
  apply (encode_tokens_in_range "M K V"). vm_compute. reflexivity.
Defined.

(** ** The two layers of the encoder model *)

Module NetFacts.

Import Net.

Section Layers.

Context `{RT : Runtime}.

Lemma embedding_ok m t : in_range m t -> embedding m t = Done (emb m t).
Proof.
  intros [H0 H1]. unfold embedding.
  apply Z.leb_le in H0. apply Z.ltb_lt in H1. now rewrite H0, H1.
Qed.

Lemma embedding_fail m t : ~ in_range m t -> embedding m t = Fail IndexError.
Proof.
  intros H. unfold embedding, in_range in *.
  destruct (0 <=? t) eqn:E0; [|reflexivity].
  destruct (t <? Z.of_nat (input_size m)) eqn:E1; [|reflexivity].
  apply Z.leb_le in E0. apply Z.ltb_lt in E1. lia.
Qed.

Lemma in_range_dec m t : in_range m t \/ ~ in_range m t.
Proof. unfold in_range. lia. Qed.

Lemma omap_ok {A B} (f : A -> outcome B) (g : A -> B) xs :
  Forall (fun x => f x = Done (g x)) xs -> omap f xs = Done (map g xs).
Proof.
  induction 1 as [|x xs Hx _ IH]; [reflexivity|].
  cbn [omap map]. rewrite Hx, IH. reflexivity.
Qed.

Lemma omap_fail {A B} (f : A -> outcome B) e xs :
  (forall x, (exists y, f x = Done y) \/ f x = Fail e) ->
  Exists (fun x => f x = Fail e) xs -> omap f xs = Fail e.
Proof.
  intros Hf. induction xs as [|x xs IH]; intros H; [inversion H|].
  cbn [omap]. destruct (Hf x) as [[y Hy]|Hx].
  - rewrite Hy. cbn [mbind outcome_bind].
    rewrite IH; [reflexivity|]. inversion H; subst; [congruence|assumption].
  - now rewrite Hx.
Qed.

Lemma omap_embedding_ok m xs :
  Forall (in_range m) xs -> omap (embedding m) xs = Done (map (emb m) xs).
Proof.
  intros H. apply omap_ok. eapply Forall_impl; [exact H|].
  intros t. apply embedding_ok.
Qed.

Lemma omap_embedding_fail m xs :
  Exists (fun t => ~ in_range m t) xs -> omap (embedding m) xs = Fail IndexError.
Proof.
  intros H. apply omap_fail.
  - intros t. destruct (in_range_dec m t) as [Ht|Ht].
    + left. eexists. now apply embedding_ok.
    + right. now apply embedding_fail.
  - eapply Exists_impl; [exact H|]. intros t. apply embedding_fail.
Qed.

Lemma omap_rows_ok m rows :
  Forall (Forall (in_range m)) rows ->
  omap (omap (embedding m)) rows = Done (map (map (emb m)) rows).
Proof.
  intros H. apply omap_ok. eapply Forall_impl; [exact H|].
  intros r. apply omap_embedding_ok.
Qed.

Lemma omap_rows_fail m rows :
  Exists (Exists (fun t => ~ in_range m t)) rows ->
  omap (omap (embedding m)) rows = Fail IndexError.
Proof.
  intros H. apply omap_fail.
  - intros r.
    assert (Hd : Forall (in_range m) r \/ Exists (fun t => ~ in_range m t) r).
    { induction r as [|t r [IH|IH]].
      - left. constructor.
      - destruct (in_range_dec m t); [left; now constructor|].
        right. now apply Exists_cons_hd.
      - right. now apply Exists_cons_tl. }
    destruct Hd as [Hr|Hr].
    + left. eexists. now apply omap_embedding_ok.
    + right. now apply omap_embedding_fail.
  - eapply Exists_impl; [exact H|]. intros r. apply omap_embedding_fail.
Qed.

(** The encoder on tokens in range. *)
Lemma encoder_ok m x :
  Forall (Forall (in_range m)) (token_rows x) ->
  encoder m x =
    Done match x with
         | Tokens1 xs =>
             Float2 (length xs) (hidden_size m) (map (emb m) xs)
         | Tokens2 cols rows =>
             Float3 {| shape0 := length rows;
                       shape1 := cols;
                       shape2 := hidden_size m;
                       cells := map (map (emb m)) rows |}
         end.
Proof.
  intros H. destruct x as [xs|cols rows]; cbn [encoder token_rows] in *.
  - inversion H; subst. now rewrite omap_embedding_ok.
  - now rewrite omap_rows_ok.
Qed.

Lemma encoder_fail m x :
  Exists (Exists (fun t => ~ in_range m t)) (token_rows x) ->
  encoder m x = Fail IndexError.
Proof.
  intros H. destruct x as [xs|cols rows]; cbn [encoder token_rows] in *.
  - inversion H as [? ? Hx|? ? Hx]; subst; [|inversion Hx].
    now rewrite omap_embedding_fail.
  - now rewrite omap_rows_fail.
Qed.

Lemma map_combine_self {A B C} (f : B * A -> C) (g : A -> B) (l : list A) :
  map f (combine (map g l) l) = map (fun a => f (g a, a)) l.
Proof. induction l as [|a l IH]; [reflexivity|]. cbn. now rewrite IH. Qed.

Lemma map_combine_repeat {A C} (f : A * A -> C) (pad : A) (l : list A) :
  map f (combine l (repeat pad (length l))) = map (fun a => f (a, pad)) l.
Proof. induction l as [|a l IH]; [reflexivity|]. cbn. now rewrite IH. Qed.

(** Putting the mean in front of every element of the batch. *)
Lemma cat_mean (n h : nat) (ys : list (list (list scalar))) :
  map (fun zy => fst zy ++ snd zy)
      (combine (map (fun v => [v]) (map (mean_rows n h) ys)) ys)
  = map (fun y => mean_rows n h y :: y) ys.
Proof. induction ys as [|y ys IH]; [reflexivity|]. cbn. now rewrite IH. Qed.

(** Padding every element of the batch with rows of zeros. *)
Lemma cat_zeros (us : list (list (list scalar))) (q h : nat) :
  map (fun uz => fst uz ++ snd uz) (combine us (zeros (length us) q h))
  = map (fun u => u ++ repeat (repeat (s_of_Z 0) h) q) us.
Proof.
  unfold zeros. induction us as [|u us IH]; [reflexivity|].
  cbn. now rewrite IH.
Qed.

Lemma extract_features_ok m x :
  Forall (Forall (in_range m)) (token_rows x) ->
  extract_features m x =
    Done {| shape0 := length (token_rows x);
            shape1 := Nat.max (S (row_length x)) (Z.to_nat (max_length m));
            shape2 := hidden_size m;
            cells := map (feature_rows m (row_length x)) (token_rows x) |}.
Proof.
  intros H. unfold extract_features. rewrite (encoder_ok m x H).
  cbn [mbind outcome_bind].
  assert (Hy : forall (b n : nat) (ys : list (list Z)),
            length ys = b ->
            (let y := {| shape0 := b; shape1 := n; shape2 := hidden_size m;
                         cells := map (map (emb m)) ys |} in
             let z := map (mean_rows (shape1 y) (shape2 y)) (cells y) in
             let z := map (fun v => [v]) z in
             let u :=
               {| shape0 := shape0 y;
                  shape1 := (1 + shape1 y)%nat;
                  shape2 := shape2 y;
                  cells := map (fun zy => fst zy ++ snd zy)
                               (combine z (cells y)) |} in
             if Z.of_nat (shape1 u) <? max_length m then
               let q := Z.to_nat (max_length m - Z.of_nat (shape1 u)) in
               let zos := zeros (shape0 u) q (shape2 u) in
               Done {| shape0 := shape0 u;
                       shape1 := (shape1 u + q)%nat;
                       shape2 := shape2 u;
                       cells := map (fun uz => fst uz ++ snd uz)
                                    (combine (cells u) zos) |}
             else Done u)
            = Done {| shape0 := b;
                      shape1 := Nat.max (S n) (Z.to_nat (max_length m));
                      shape2 := hidden_size m;
                      cells := map (feature_rows m n) ys |}).
  { intros b n ys Hb. cbv zeta. cbn [shape0 shape1 shape2 cells Nat.add].
    rewrite cat_mean, map_map.
    destruct (Z.of_nat (S n) <? max_length m) eqn:E.
    - apply Z.ltb_lt in E.
      replace b
        with (length (map (fun r => mean_rows n (hidden_size m)
                                      (map (emb m) r) :: map (emb m) r) ys))
        at 2 by (now rewrite length_map).
      rewrite cat_zeros, map_map. f_equal. f_equal. lia.
    - apply Z.ltb_ge in E. f_equal. f_equal; [lia|].
      apply map_ext. intros r. unfold feature_rows.
      replace (Z.to_nat (max_length m - Z.of_nat (S n))) with 0%nat by lia.
      cbn [repeat]. now rewrite app_nil_r. }
  destruct x as [xs|cols rows]; cbn [token_rows row_length].
  - exact (Hy 1%nat (length xs) [xs] eq_refl).
  - exact (Hy (length rows) cols rows eq_refl).
Qed.

Lemma emb_length m t : length (emb m t) = hidden_size m.
Proof. unfold emb. now rewrite length_map, length_seq. Qed.

Lemma feature_rows_fill m n r :
  length r = n ->
  length (feature_rows m n r)
    = Nat.max (S n) (Z.to_nat (max_length m)) /\
  Forall (fun row : list scalar => length row = hidden_size m)
         (feature_rows m n r).
Proof.
  intros Hr. unfold feature_rows. split.
  - cbn [length]. rewrite length_app, length_map, repeat_length, Hr. lia.
  - constructor.
    + unfold mean_rows. now rewrite length_map, length_seq.
    + apply Forall_app. split.
      * apply List.Forall_forall. intros row Hin. apply in_map_iff in Hin.
        destruct Hin as (t & <- & _). apply emb_length.
      * apply List.Forall_forall. intros row Hin. apply repeat_spec in Hin.
        subst row. apply repeat_length.
Qed.

Lemma forward_ok m x :
  Forall (Forall (in_range m)) (token_rows x) ->
  hidden_size m = input_size m ->
  forward m x =
    Done match x with
         | Tokens1 xs =>
             Float2 (length xs) (hidden_size m) (map (decoded m) xs)
         | Tokens2 cols rows =>
             Float3 {| shape0 := length rows;
                       shape1 := cols;
                       shape2 := hidden_size m;
                       cells := map (map (decoded m)) rows |}
         end.
Proof.
  intros H Heq. unfold forward. rewrite (encoder_ok m x H).
  cbn [mbind outcome_bind]. apply Nat.eqb_eq in Heq.
  destruct x as [xs|cols rows]; unfold decoder; cbn [shape0 shape1 shape2 cells];
    rewrite Heq; f_equal; f_equal.
  - now rewrite map_map.
  - f_equal. rewrite map_map. apply map_ext. intros r. now rewrite map_map.
Qed.

Lemma forward_mismatch m x :
  Forall (Forall (in_range m)) (token_rows x) ->
  hidden_size m <> input_size m ->
  forward m x = Fail RuntimeError.
Proof.
  intros H Hne. unfold forward. rewrite (encoder_ok m x H).
  cbn [mbind outcome_bind]. apply Nat.eqb_neq in Hne.
  destruct x as [xs|cols rows]; unfold decoder; cbn [shape2]; now rewrite Hne.
Qed.

End Layers.

End NetFacts.

(** X6. On a rectangular tensor of tokens that are all valid indices of the
    embedding, [extract_features] returns a tensor with one element per
    sequence, [max(n + 1, max_length)] positions per sequence ([n] the
    sequence length) and [hidden_size] entries per position, whose cells
    fill that shape: position 0 holds the mean of the sequence's
    embeddings, positions 1 to [n] hold the embeddings of its tokens, and
    the remaining positions are zeros.  A sequence is padded up to
    [max_length] and never cut down to it. *)
Theorem extract_features_pads_never_truncates `{RT : Runtime}
    (m : Net.DummyModel) (x : Net.long_tensor) :
  Net.rectangular x ->
  Forall (Forall (Net.in_range m)) (Net.token_rows x) ->
  exists u,
    Net.extract_features m x = Net.Done u /\
    Net.shape0 u = length (Net.token_rows x) /\
    Net.shape1 u
      = Nat.max (S (Net.row_length x)) (Z.to_nat (Net.max_length m)) /\
    (S (Net.row_length x) <= Net.shape1 u)%nat /\
    Net.shape2 u = Net.hidden_size m /\
    Net.fills_shape u /\
    Net.cells u
      = map (fun r =>
               Net.mean_rows (Net.row_length x) (Net.hidden_size m)
                             (map (Net.emb m) r)
               :: map (Net.emb m) r
               ++ repeat (repeat (s_of_Z 0) (Net.hidden_size m))
                         (Z.to_nat (Net.max_length m
                                    - Z.of_nat (S (Net.row_length x)))))
            (Net.token_rows x).
Proof.
  intros Hrect Hrange. eexists. split; [now apply NetFacts.extract_features_ok|].
  cbn [Net.shape0 Net.shape1 Net.shape2 Net.cells].
  split; [reflexivity|]. split; [reflexivity|]. split; [lia|].
  split; [reflexivity|]. split; [|reflexivity].
  unfold Net.fills_shape. cbn [Net.shape0 Net.shape1 Net.shape2 Net.cells].
  split; [apply length_map|].
  apply List.Forall_forall. intros b Hb. apply in_map_iff in Hb.
  destruct Hb as (r & <- & Hr).
  apply NetFacts.feature_rows_fill.
  unfold Net.rectangular in Hrect.
  rewrite List.Forall_forall in Hrect. now apply Hrect.
Qed.

Lemma extract_features_pads_never_truncates_witness :
  exists u,
    Net.extract_features NetSample.dummy (Net.Tokens1 [0; 14; 12; 1])
      = Net.Done u /\
    Net.shape0 u = 1%nat /\ Net.shape1 u = 5%nat /\ Net.shape2 u = 3%nat /\
    Net.fills_shape u.
Proof.
  destruct (extract_features_pads_never_truncates NetSample.dummy
              (Net.Tokens1 [0; 14; 12; 1]))
    as (u & E & H0 & H1 & _ & H2 & F & _).
  - repeat constructor.
  - repeat constructor; cbn; lia.
  - exists u. repeat split; try assumption; apply F.
Defined.

(** X7. A token that is negative or not below [input_size], anywhere in
    the tensor, makes both [extract_features] and [forward] raise
    [IndexError]. *)
Theorem layers_reject_tokens_out_of_range `{RT : Runtime}
    (m : Net.DummyModel) (x : Net.long_tensor) :
  Exists (Exists (fun t => ~ Net.in_range m t)) (Net.token_rows x) ->
  Net.extract_features m x = Net.Fail Net.IndexError /\
  Net.forward m x = Net.Fail Net.IndexError.
Proof.
  intros H. unfold Net.extract_features, Net.forward.
  rewrite (NetFacts.encoder_fail m x H). split; reflexivity.
Qed.

Lemma layers_reject_tokens_out_of_range_witness :
  Net.extract_features NetSample.square (Net.Tokens1 [0; 14; 1])
    = Net.Fail Net.IndexError /\
  Net.forward NetSample.square (Net.Tokens1 [0; 14; 1])
    = Net.Fail Net.IndexError.
Proof.
  apply (layers_reject_tokens_out_of_range NetSample.square
           (Net.Tokens1 [0; 14; 1])).
  apply Exists_cons_hd, Exists_cons_tl, Exists_cons_hd.
  unfold Net.in_range. cbn. lia.
Defined.

(** X8. [forward] feeds embeddings of [hidden_size] entries to a decoder
    built for [input_size] entries: on tokens in range it raises
    [RuntimeError] whenever the two sizes differ, and when they agree it
    returns a tensor of the shape of the input with [hidden_size] appended,
    holding the decoder's output on the embedding of each token. *)
Theorem forward_needs_equal_sizes `{RT : Runtime}
    (m : Net.DummyModel) (x : Net.long_tensor) :
  Forall (Forall (Net.in_range m)) (Net.token_rows x) ->
  (Net.hidden_size m <> Net.input_size m ->
   Net.forward m x = Net.Fail Net.RuntimeError) /\
  (Net.hidden_size m = Net.input_size m ->
   Net.forward m x =
     Net.Done
       match x with
       | Net.Tokens1 xs =>
           Net.Float2 (length xs) (Net.hidden_size m)
                      (map (Net.decoded m) xs)
       | Net.Tokens2 cols rows =>
           Net.Float3 {| Net.shape0 := length rows;
                         Net.shape1 := cols;
                         Net.shape2 := Net.hidden_size m;
                         Net.cells := map (map (Net.decoded m)) rows |}
       end).
Proof.
  intros H. split; intros Hs.
  - now apply NetFacts.forward_mismatch.
  - now apply NetFacts.forward_ok.
Qed.

Lemma forward_needs_equal_sizes_witness :
  Net.forward NetSample.dummy (Net.Tokens1 [0; 14; 1])
    = Net.Fail Net.RuntimeError /\
  Net.forward NetSample.square (Net.Tokens1 [0; 3; 1])
    = Net.Done (Net.Float2 3 4 (map (Net.decoded NetSample.square) [0; 3; 1])).
Proof.
  split.
  - apply (forward_needs_equal_sizes NetSample.dummy (Net.Tokens1 [0; 14; 1]));
      [repeat constructor; cbn; lia|discriminate].
  - apply (forward_needs_equal_sizes NetSample.square (Net.Tokens1 [0; 3; 1]));
      [repeat constructor; cbn; lia|reflexivity].
Defined.

(** X9. The encoder's tokens always fit a model built for the 27 symbols:
    when [encode] returns on an input of [L] pieces and [input_size] is at
    least 27, [extract_features] on its tokens returns one sequence of
    [max(L + 3, max_length)] positions of [hidden_size] entries.  A model
    with [input_size] below 2 raises [IndexError] on every encoded input,
    for the end token is 1. *)
Theorem extract_features_of_encoded `{RT : Runtime}
    (m : Net.DummyModel) (x : string) (toks : list Z) :
  Dummy.encode x = Ok toks ->
  ((27 <= Net.input_size m)%nat ->
   exists u,
     Net.extract_features m (Net.Tokens1 toks) = Net.Done u /\
     Net.shape0 u = 1%nat /\
     Net.shape1 u
       = Nat.max (length (Dummy.symbols x) + 3)
                 (Z.to_nat (Net.max_length m)) /\
     Net.shape2 u = Net.hidden_size m /\
     Net.fills_shape u) /\
  ((Net.input_size m < 2)%nat ->
   Net.extract_features m (Net.Tokens1 toks) = Net.Fail Net.IndexError).
Proof.
  intros H. apply EncodeFacts.encode_inv in H as (mid & -> & F).
  assert (Hlen : length (0 :: mid ++ [1]) = (length (Dummy.symbols x) + 2)%nat).
  { apply Forall2_length in F. cbn [length]. rewrite length_app.
    cbn [length]. lia. }
  split.
  - intros Hsize.
    assert (Hrange : Forall (Net.in_range m) (0 :: mid ++ [1])).
    { assert (Hmid : Forall (fun t => 0 <= t < 27) mid).
      { clear -F. induction F as [|s t ss ts Hs _ IH]; constructor;
          [|exact IH].
        now apply EncodeFacts.peptides_entry in Hs as (? & _). }
      unfold Net.in_range. constructor; [lia|].
      apply Forall_app. split; [|repeat constructor; lia].
      eapply Forall_impl; [exact Hmid|]. cbn beta. intros t Ht. lia. }
    eexists. split.
    { apply NetFacts.extract_features_ok. cbn [Net.token_rows].
      constructor; [exact Hrange|constructor]. }
    cbn [Net.shape0 Net.shape1 Net.shape2 Net.cells Net.token_rows
         Net.row_length]. rewrite Hlen.
    split; [reflexivity|]. split; [f_equal; lia|]. split; [reflexivity|].
    unfold Net.fills_shape.
    cbn [Net.shape0 Net.shape1 Net.shape2 Net.cells map length].
    split; [reflexivity|]. constructor; [|constructor].
    rewrite <- Hlen. now apply NetFacts.feature_rows_fill.
  - intros Hsize. unfold Net.extract_features.
    rewrite NetFacts.encoder_fail; [reflexivity|].
    cbn [Net.token_rows]. apply Exists_cons_hd, Exists_cons_tl, Exists_app.
    right. apply Exists_cons_hd. unfold Net.in_range. lia.
Qed.

Lemma extract_features_of_encoded_witness :
  exists u,
    Net.extract_features NetSample.dummy (Net.Tokens1 [0; 14; 12; 23; 1])
      = Net.Done u /\
    Net.shape0 u = 1%nat /\
    Net.shape1 u
      = Nat.max (length (Dummy.symbols "M K V") + 3)
                (Z.to_nat (Net.max_length NetSample.dummy)) /\
    Net.shape2 u = Net.hidden_size NetSample.dummy /\
    Net.fills_shape u.
Proof.
  destruct (extract_features_of_encoded NetSample.dummy "M K V"
              [0; 14; 12; 23; 1]) as [H _].
  - vm_compute. reflexivity.
  - apply H. cbn. lia.
Defined.

(** ** The training loops, beyond the claims *)

Module LoopFacts.

Import Train Entry.

Section Loops.

Context `{RT : Runtime}.

(** A loop whose body always returns on the elements it meets, and moves a
    measure of the state by an amount that depends on the element alone:
    the loop returns and the amounts add up. *)
Lemma for_each_measure {A} (body : state -> A -> result state)
    (mu : state -> Z) (c : A -> Z) (P : A -> Prop) :
  (forall s x, P x -> exists s', body s x = Ok s' /\ mu s' = mu s + c x) ->
  forall xs s, List.Forall P xs ->
    exists s', for_each body xs s = Ok s' /\
               mu s' = mu s + fold_right (fun x acc => c x + acc) 0 xs.
Proof.
  intros Hbody. induction xs as [|x xs IH]; intros s HP.
  - exists s. split; [reflexivity|]. cbn. lia.
  - inversion HP as [|? ? Hx Hxs]; subst.
    destruct (Hbody s x Hx) as (s1 & E1 & M1).
    destruct (IH s1 Hxs) as (s2 & E2 & M2).
    exists s2. cbn [for_each fold_right]. rewrite E1. split; [exact E2|]. lia.
Qed.

Lemma Forall_True {A} (xs : list A) : List.Forall (fun _ => True) xs.
Proof. induction xs; constructor; auto. Qed.

Lemma fold_right_const {A} (c : Z) (xs : list A) :
  fold_right (fun _ acc => c + acc) 0 xs = Z.of_nat (length xs) * c.
Proof. induction xs as [|x xs IH]; cbn [fold_right length]; lia. Qed.

Lemma examples_cons (b : batch) bs :
  examples (b :: bs) = Z.of_nat (length b) + examples bs.
Proof.
  unfold examples. cbn [map].
  change (list_sum (?a :: ?l)) with (a + list_sum l)%nat. lia.
Qed.

Lemma examples_window (w : list (Z * batch)) :
  fold_right (fun jb acc => Z.of_nat (length (snd jb)) + acc) 0 w
  = examples (map snd w).
Proof.
  induction w as [|jb w IH]; [reflexivity|].
  cbn [fold_right map]. rewrite examples_cons, IH. reflexivity.
Qed.

Lemma map_snd_enumerate_from {A} (xs : list A) i :
  map snd (enumerate_from i xs) = xs.
Proof.
  revert i. induction xs as [|x xs IH]; intros i; [reflexivity|].
  cbn [enumerate_from map snd]. now rewrite IH.
Qed.

Lemma examples_nonneg bs : 0 <= examples bs.
Proof. unfold examples. lia. Qed.


Lemma train_batch_it h s (jb : Z * batch) :
  gradient_accumulation_steps h <> 0 ->
  exists s', train_batch h s jb = Ok s' /\
             it s' = it s + Z.of_nat (length (snd jb)).
Proof.
  intros Hgas. destruct jb as [j b]. unfold train_batch, pymod.
  apply Z.eqb_neq in Hgas. rewrite Hgas. eexists. split; reflexivity.
Qed.

(** With no accumulation factor the first batch already raises. *)
Lemma pymod_zero j : pymod j 0 = Raise ZeroDivisionError.
Proof. reflexivity. Qed.




(** *** The Cross-Validation Pass of [simple_ppitrain], in full *)






(** *** Shards, epochs and whole runs *)

Lemma enumerate_from_Forall {A} (P : A -> Prop) (xs : list A) i :
  List.Forall P xs ->
  List.Forall (fun kd : Z * A => P (snd kd)) (enumerate_from i xs).
Proof.
  intros H. revert i. induction H as [|x xs Hx Hxs IH]; intros i;
    cbn [enumerate_from]; constructor; auto.
Qed.

Lemma fold_right_enumerate_from {A} (c : A -> Z) (xs : list A) i :
  fold_right (fun (kd : Z * A) acc => c (snd kd) + acc) 0
             (enumerate_from i xs)
  = fold_right (fun x acc => c x + acc) 0 xs.
Proof.
  revert i. induction xs as [|x xs IH]; intros i; [reflexivity|].
  cbn [enumerate_from fold_right snd]. now rewrite IH.
Qed.

(** Epochs over shards: a measure that every shard visit moves by an amount
    of the shard moves by the sum over the shards, once per epoch. *)
Lemma epochs_measure {S} (shard : Z -> state -> Z * S -> result state)
    (mu : state -> Z) (c : S -> Z) (P : S -> Prop) :
  (forall e s kd, P (snd kd) ->
     exists s', shard e s kd = Ok s' /\ mu s' = mu s + c (snd kd)) ->
  forall (xs : list S) n s, List.Forall P xs ->
    exists s',
      for_each (fun s e => for_each (shard e) (enumerate xs) s)
               (range n) s = Ok s' /\
      mu s' = mu s + Z.of_nat (Z.to_nat n)
                     * fold_right (fun sh acc => c sh + acc) 0 xs.
Proof.
  intros Hshard xs n s HP.
  destruct (for_each_measure
              (fun s e => for_each (shard e) (enumerate xs) s) mu
              (fun _ => fold_right (fun sh acc => c sh + acc) 0 xs)
              (fun _ => True)) with (xs := range n) (s := s)
    as (s' & E & M).
  - intros s0 e _.
    destruct (for_each_measure (shard e) mu (fun kd => c (snd kd))
                (fun kd => P (snd kd)) (Hshard e) (enumerate xs) s0)
      as (s1 & E1 & M1).
    { apply enumerate_from_Forall, HP. }
    exists s1. split; [exact E1|]. rewrite M1. unfold enumerate.
    now rewrite fold_right_enumerate_from.
  - apply Forall_True.
  - exists s'. split; [exact E|].
    rewrite M, fold_right_const, TrainFacts.range_length. reflexivity.
Qed.



Lemma train_shard_it h s (kd : Z * (loader * loader * loader)) :
  gradient_accumulation_steps h <> 0 ->
  exists s', train_shard h s kd = Ok s' /\
             it s' = it s + examples (batches (fst (fst (snd kd)))).
Proof.
  intros Hgas. destruct kd as [k [[tr te] va]]. cbn [snd fst] in *.
  unfold train_shard.
  match goal with
  | |- context [for_each _ _ ?s0] => set (st := s0)
  end.
  destruct (for_each_measure (train_batch h) it
              (fun jb => Z.of_nat (length (snd jb))) (fun _ => True)
              (fun s jb _ => train_batch_it h s jb Hgas)
              (enumerate (batches tr)) st (Forall_True _))
    as (s1 & E & I).
  rewrite E. cbn [mbind result_bind]. eexists. split; [reflexivity|].
  cbn [it]. rewrite I, examples_window. unfold enumerate.
  rewrite map_snd_enumerate_from. reflexivity.
Qed.

Lemma train_shard_backward h s (kd : Z * (loader * loader * loader)) :
  gradient_accumulation_steps h <> 0 ->
  exists s', train_shard h s kd = Ok s' /\
    Z.of_nat (count_ev is_backward (log s'))
    = Z.of_nat (count_ev is_backward (log s)) + len (fst (fst (snd kd))).
Proof.
  intros Hgas. destruct kd as [k [[tr te] va]]. cbn [snd fst] in *.
  unfold train_shard.
  match goal with
  | |- context [for_each _ _ ?s0] => set (st := s0)
  end.
  assert (Hb : forall s jb, exists s' evs,
             train_batch h s jb = Ok s' /\
             log s' = log s ++ evs /\ count_ev is_backward evs = 1%nat).
  { intros s0 jb. apply TrainFacts.train_batch_other; [assumption|].
    simpl; auto. }
  destruct (TrainFacts.for_each_extends _ is_backward (fun _ => 1%nat) Hb
              (enumerate (batches tr)) st) as (s1 & evs & E & L & C).
  rewrite E. cbn [mbind result_bind]. eexists. split; [reflexivity|].
  cbn [log]. rewrite L. subst st. cbn [log].
  rewrite !TrainFacts.count_ev_app, C, TrainFacts.list_sum_const.
  unfold enumerate. rewrite TrainFacts.enumerate_from_length. unfold len.
  cbn [count_ev List.filter is_backward length]. lia.
Qed.


Lemma simple_epochs_gas h d epochs :
  simple_epochs h d = Ok epochs -> gradient_accumulation_steps h <> 0.
Proof.
  unfold simple_epochs, floordiv. intros H Hgas. rewrite Hgas in H.
  destruct (0 <? max_steps h); discriminate H.
Qed.


(** A whole run of [train]. *)
Lemma train_run h m (d : directory (loader * loader * loader)) :
  gradient_accumulation_steps h <> 0 -> total d <> 0 ->
  exists s,
    train h m d = Ok s /\
    it s = Z.max 0 (Z.max 1 (max_steps h) / total d)
           * epoch_examples (fun sh => fst (fst sh)) d /\
    Z.of_nat (count_ev is_backward (log s))
      = Z.max 0 (Z.max 1 (max_steps h) / total d)
        * epoch_batches (fun sh => fst (fst sh)) d.
Proof.
  intros Hgas HN. unfold train, train_epochs, floordiv.
  apply Z.eqb_neq in Hgas as Hg, HN as Hn. rewrite Hg, Hn.
  cbn [mbind result_bind].
  set (epochs := Z.max 1 (max_steps h) / total d).
  match goal with
  | |- context [for_each _ _ ?s0] => set (st := s0)
  end.
  destruct (epochs_measure (fun _ => train_shard h) it
              (fun sh => examples (batches (fst (fst sh)))) (fun _ => True)
              (fun e s kd _ => train_shard_it h s kd Hgas)
              (shards d) epochs st (Forall_True _)) as (s1 & E1 & I1).
  destruct (epochs_measure (fun _ => train_shard h)
              (fun s => Z.of_nat (count_ev is_backward (log s)))
              (fun sh => len (fst (fst sh))) (fun _ => True)
              (fun e s kd _ => train_shard_backward h s kd Hgas)
              (shards d) epochs st (Forall_True _)) as (s2 & E2 & I2).
  rewrite E1 in E2. injection E2 as <-.
  unfold train_epoch. rewrite E1. cbn [mbind result_bind].
  eexists. split; [reflexivity|]. cbn [it log].
  replace (Z.of_nat (Z.to_nat epochs)) with (Z.max 0 epochs) in I1, I2
    by lia.
  subst st. cbn [it log] in I1, I2.
  rewrite !TrainFacts.count_ev_app.
  cbn [count_ev List.filter is_backward length] in *.
  unfold epoch_examples, epoch_batches.
  split; lia.
Qed.

(** *** The entry point [ppi] *)

Lemma ppi_imports :
  load_global ppi_globals "RobertaModel"
    = Ok (Imported "fairseq.models.roberta.RobertaModel") /\
  load_global ppi_globals "int" = Ok (Imported "builtins.int") /\
  load_global ppi_globals "list" = Ok (Imported "builtins.list") /\
  load_global ppi_globals "PPIBinder"
    = Ok (Imported "poplar.model.ppibinder.PPIBinder") /\
  load_global ppi_globals "torch" = Ok (Imported "torch") /\
  load_global ppi_globals "os" = Ok (Imported "os") /\
  load_global ppi_globals "print" = Ok (Imported "builtins.print") /\
  load_global ppi_globals "max" = Ok (Imported "builtins.max") /\
  load_global ppi_globals "InteractionDataDirectory"
    = Ok (Imported "poplar.dataset.interactions.InteractionDataDirectory") /\
  load_global ppi_globals "NegativeSampler"
    = Ok (Imported "poplar.dataset.interactions.NegativeSampler").
Proof. repeat split; vm_compute; reflexivity. Qed.

(** [ppi] is its setup, then [train], then the save. *)
Lemma ppi_unfold (a : run_args (loader * loader * loader)) :
  ppi a =
    match train (run_hyper a) (from_pretrained a) (ppi_directory a) with
    | Ok s =>
        (ppi_setup a ++ map Collaborator (log s)
         ++ [Collaborator (TorchSave (model_path (run_hyper a) +:+ "last"))],
         Ok tt)
    | Raise ex => (ppi_setup a, Raise ex)
    end.
Proof.
  destruct ppi_imports as (H1 & H2 & H3 & H4 & H5 & H6 & H7 & H8 & H9 & H10).
  unfold ppi, ppi_setup, ppi_directory. cbv zeta.
  rewrite H1, H2, H3, H4, H5, H6, H7, H8, H9, H10,
    RunFacts.train_bound_in_ppi.
  cbn [rbind rlift remit rcall_train].
  destruct (environ (run_hyper a) !! "CUDA_VISIBLE_DEVICES") as [v|];
    cbn [rbind rlift remit rcall_train app];
    destruct (train (run_hyper a) (from_pretrained a) _) as [s|ex];
    cbn [rbind rlift remit rcall_train app];
    rewrite ?app_nil_r, <- ?app_assoc; reflexivity.
Qed.



Lemma count_run_setup p a :
  (forall fields, p (Print fields) = false) ->
  p FreezeWeights = false -> p MakeDirectory = false ->
  (forall c dd, p (LoadPretrained c dd) = false) ->
  count_run p (ppi_setup a) = 0%nat.
Proof.
  intros Hp Hf Hm Hl. unfold ppi_setup, count_run. cbv zeta.
  destruct (environ (run_hyper a) !! "CUDA_VISIBLE_DEVICES") as [v|];
    [destruct (1 <? n_gpu (run_hyper a))|];
    cbn [app List.filter]; rewrite ?Hp, ?Hf, ?Hm, ?Hl; reflexivity.
Qed.

End Loops.

End LoopFacts.






(** X13. [simple_ppitrain] needs the environment variable
    [CUDA_VISIBLE_DEVICES]: once its epoch arithmetic succeeds, a run with
    the variable unset raises [KeyError] before the log is opened, whatever
    the model, the directory and the device; [train] with the same settings
    returns on every directory that reports a non-zero number of pairs. *)
Theorem simple_ppitrain_needs_visible_devices `{RT : Runtime}
    (h : Train.hyper) (m : params)
    (d : Train.directory (Train.loader * Train.loader)) (epochs : Z) :
  Train.simple_epochs h d = Ok epochs ->
  Train.environ h !! "CUDA_VISIBLE_DEVICES" = None ->
  Train.simple_ppitrain h m d = Raise (KeyError "CUDA_VISIBLE_DEVICES") /\
  forall d3 : Train.directory (Train.loader * Train.loader * Train.loader),
    Train.total d3 <> 0 -> exists s, Train.train h m d3 = Ok s.
Proof.
  intros He Hv. split.
  - unfold Train.simple_ppitrain, Train.getenv. rewrite He, Hv. reflexivity.
  - intros d3 HN.
    destruct (LoopFacts.train_run h m d3
                (LoopFacts.simple_epochs_gas h d epochs He) HN)
      as (s & E & _).
    exists s. exact E.
Qed.

Lemma simple_ppitrain_needs_visible_devices_witness :
  Train.simple_ppitrain (EntrySample.hyper_unset 0 1) 0%nat Sample.dir2
    = Raise (KeyError "CUDA_VISIBLE_DEVICES") /\
  exists s, Train.train (EntrySample.hyper_unset 0 1) 0%nat Sample.dir3
            = Ok s.
Proof.
  destruct (simple_ppitrain_needs_visible_devices
              (EntrySample.hyper_unset 0 1) 0%nat Sample.dir2 1)
    as (K & T); [reflexivity|reflexivity|].
  split; [exact K|]. apply T. discriminate.
Defined.

(** X14. [train] raises exactly when one of its two floor divisions has a
    zero divisor: [ZeroDivisionError] if the accumulation factor is 0 or the
    directory reports 0 pairs, before any logging or training; in every
    other case it returns, whatever the shards contain. *)
Theorem train_raises_iff_zero_divisor `{RT : Runtime}
    (h : Train.hyper) (m : params)
    (d : Train.directory (Train.loader * Train.loader * Train.loader)) :
  (Train.train h m d = Raise ZeroDivisionError <->
   Train.gradient_accumulation_steps h = 0 \/ Train.total d = 0) /\
  ((exists s, Train.train h m d = Ok s) <->
   Train.gradient_accumulation_steps h <> 0 /\ Train.total d <> 0).
Proof.
  assert (Hz : Train.gradient_accumulation_steps h = 0 \/ Train.total d = 0
               -> Train.train h m d = Raise ZeroDivisionError).
  { intros Hor. unfold Train.train, Train.train_epochs, floordiv.
    destruct (Train.gradient_accumulation_steps h =? 0) eqn:Eg;
      [reflexivity|].
    destruct Hor as [Hg|HN]; [apply Z.eqb_neq in Eg; contradiction|].
    rewrite HN. reflexivity. }
  assert (Hok : Train.gradient_accumulation_steps h <> 0 ->
                Train.total d <> 0 -> exists s, Train.train h m d = Ok s).
  { intros Hg HN. destruct (LoopFacts.train_run h m d Hg HN) as (s & E & _).
    eauto. }
  split; split.
  - intros Hr.
    destruct (Z.eq_dec (Train.gradient_accumulation_steps h) 0) as [|Hg];
      [now left|].
    destruct (Z.eq_dec (Train.total d) 0) as [|HN]; [now right|].
    destruct (Hok Hg HN) as (s & E). congruence.
  - exact Hz.
  - intros (s & E). split; intros Hc;
      [rewrite (Hz (or_introl Hc)) in E|rewrite (Hz (or_intror Hc)) in E];
      discriminate.
  - intros (Hg & HN). auto.
Qed.

(** X15. [simple_ppitrain] divides before it looks at anything else: with an
    accumulation factor of 0, or with [max_steps > 0] on a directory that
    reports 0 pairs, it raises [ZeroDivisionError], also when
    [CUDA_VISIBLE_DEVICES] is unset; with [max_steps] unset a directory of
    0 pairs is accepted and one epoch is planned. *)
Theorem simple_ppitrain_zero_divisors `{RT : Runtime}
    (h : Train.hyper) (m : params)
    (d : Train.directory (Train.loader * Train.loader)) :
  Train.gradient_accumulation_steps h = 0 \/
  (0 < Train.max_steps h /\ Train.total d = 0) ->
  Train.simple_ppitrain h m d = Raise ZeroDivisionError /\
  forall h', Train.gradient_accumulation_steps h' <> 0 ->
             Train.max_steps h' <= 0 ->
             Train.simple_epochs h' d = Ok 1.
Proof.
  intros Hor. split.
  - unfold Train.simple_ppitrain, Train.simple_epochs, floordiv.
    destruct Hor as [Hg|(Hms & HN)].
    + rewrite Hg. cbn [Z.eqb].
      destruct (0 <? Train.max_steps h); reflexivity.
    + apply Z.ltb_lt in Hms. rewrite Hms, HN.
      destruct (Train.gradient_accumulation_steps h =? 0); reflexivity.
  - intros h' Hg Hms. now apply TrainFacts.simple_epochs_default.
Qed.

Lemma simple_ppitrain_zero_divisors_witness :
  Train.simple_ppitrain (EntrySample.hyper_unset 10 1) 0%nat
    EntrySample.dir_empty = Raise ZeroDivisionError /\
  Train.simple_epochs (Sample.hyper0 0 1) EntrySample.dir_empty = Ok 1.
Proof.
  destruct (simple_ppitrain_zero_divisors
              (EntrySample.hyper_unset 10 1) 0%nat EntrySample.dir_empty)
    as (Z0 & E); [right; split; reflexivity|].
  split; [exact Z0|]. apply E; [discriminate|discriminate].
Defined.



(** X17. A whole run of [train] on a directory that reports [N > 0] pairs,
    with a non-zero accumulation factor: it returns after
    [max(1, max_steps) // N] epochs, with one backward pass per training
    batch and epoch and the Training Step Counter at that many times the
    number of training triples. When the training triples are the [N]
    reported pairs, the counter never exceeds [max(1, max_steps)] and falls
    short of it by less than one epoch. *)
Theorem train_whole_run `{RT : Runtime}
    (h : Train.hyper) (m : params)
    (d : Train.directory (Train.loader * Train.loader * Train.loader)) :
  Train.gradient_accumulation_steps h <> 0 -> 0 < Train.total d ->
  let epochs := Z.max 1 (Train.max_steps h) / Train.total d in
  let train_loader :=
    fun sh : Train.loader * Train.loader * Train.loader => fst (fst sh) in
  exists s,
    Train.train h m d = Ok s /\
    0 <= epochs /\
    Train.it s = epochs * Entry.epoch_examples train_loader d /\
    Z.of_nat (Train.count_ev Train.is_backward (Train.log s))
      = epochs * Entry.epoch_batches train_loader d /\
    (Entry.epoch_examples train_loader d = Train.total d ->
     Train.it s <= Z.max 1 (Train.max_steps h) < Train.it s + Train.total d).
Proof.
  intros Hgas HN epochs train_loader.
  destruct (LoopFacts.train_run h m d Hgas ltac:(lia)) as (s & E & I & B).
  fold epochs in I, B. fold train_loader in I, B.
  assert (He : 0 <= epochs) by (apply Z.div_pos; lia).
  rewrite Z.max_r in I, B by exact He.
  exists s. split; [exact E|]. split; [exact He|]. split; [exact I|].
  split; [exact B|]. intros Heq. rewrite I, Heq.
  pose proof (Z.mul_div_le (Z.max 1 (Train.max_steps h)) (Train.total d) HN).
  pose proof (Z.mul_succ_div_gt (Z.max 1 (Train.max_steps h))
                (Train.total d) HN).
  fold epochs in H, H0. lia.
Qed.

Lemma train_whole_run_witness :
  exists s,
    Train.train (Sample.hyper0 10 1) 0%nat Sample.dir3 = Ok s /\
    Train.it s = 8 /\
    Z.of_nat (Train.count_ev Train.is_backward (Train.log s)) = 4.
Proof.
  destruct (train_whole_run (Sample.hyper0 10 1) 0%nat Sample.dir3)
    as (s & E & _ & I & B & _); [discriminate|reflexivity|].
  exists s. split; [exact E|]. split; [exact I|exact B].
Defined.



(** X19. When [train] raises, [ppi] saves nothing: with an accumulation
    factor of 0 or a directory that reports 0 pairs, [ppi] has loaded and
    frozen the pretrained model, built the binder, the directory and the
    sampler, and then ends in [ZeroDivisionError] without any call of
    [torch.save]. *)
Theorem ppi_saves_nothing_on_error `{RT : Runtime}
    (a : Train.run_args (Train.loader * Train.loader * Train.loader)) :
  Train.gradient_accumulation_steps (Train.run_hyper a) = 0 \/
  Train.total (Entry.ppi_directory a) = 0 ->
  Entry.ppi a = (Entry.ppi_setup a, Raise ZeroDivisionError) /\
  Entry.count_run Entry.is_torch_save (fst (Entry.ppi a)) = 0%nat /\
  Entry.count_run Train.is_backward (fst (Entry.ppi a)) = 0%nat.
Proof.
  intros Hor.
  assert (Hz : Train.train (Train.run_hyper a) (Train.from_pretrained a)
                 (Entry.ppi_directory a) = Raise ZeroDivisionError).
  { unfold Train.train, Train.train_epochs, floordiv.
    destruct (Train.gradient_accumulation_steps (Train.run_hyper a) =? 0)
      eqn:Eg; [reflexivity|].
    destruct Hor as [Hg|HN]; [apply Z.eqb_neq in Eg; contradiction|].
    rewrite HN. reflexivity. }
  assert (Hrun : Entry.ppi a
                 = (Entry.ppi_setup a, Raise ZeroDivisionError)).
  { rewrite LoopFacts.ppi_unfold, Hz. reflexivity. }
  split; [exact Hrun|]. rewrite Hrun. cbn [fst].
  split; apply LoopFacts.count_run_setup; reflexivity.
Qed.

Lemma ppi_saves_nothing_on_error_witness :
  snd (Entry.ppi (EntrySample.run3 10 0)) = Raise ZeroDivisionError /\
  Entry.count_run Entry.is_torch_save
    (fst (Entry.ppi (EntrySample.run3 10 0))) = 0%nat.
Proof.
  destruct (ppi_saves_nothing_on_error (EntrySample.run3 10 0))
    as (R & S0 & _); [left; reflexivity|].
  split; [rewrite R; reflexivity|exact S0].
Defined.

(** X20. [ppi] wraps the model in [DataParallel] exactly when
    [CUDA_VISIBLE_DEVICES] is set and more than one GPU is counted: on a
    machine with several GPUs where the variable is unset the model is not
    wrapped, however the run ends. *)
Theorem ppi_data_parallel_iff `{RT : Runtime}
    (a : Train.run_args (Train.loader * Train.loader * Train.loader)) :
  In Entry.WrapDataParallel (fst (Entry.ppi a)) <->
  (exists visible,
     Train.environ (Train.run_hyper a) !! "CUDA_VISIBLE_DEVICES"
     = Some visible) /\
  1 < Train.n_gpu (Train.run_hyper a).
Proof.
  assert (Hmap : forall l, ~ In Entry.WrapDataParallel
                             (map Entry.Collaborator l)).
  { intros l H. apply in_map_iff in H as (ev & Hev & _). discriminate. }
  assert (Hfst : In Entry.WrapDataParallel (fst (Entry.ppi a)) <->
                 In Entry.WrapDataParallel (Entry.ppi_setup a)).
  { rewrite LoopFacts.ppi_unfold.
    destruct (Train.train _ _ _) as [s|ex]; cbn [fst]; [|reflexivity].
    rewrite !in_app_iff. split; [|auto].
    intros [H|[H|H]]; [exact H|destruct (Hmap _ H)|].
    destruct H as [H|[]]. discriminate. }
  rewrite Hfst. unfold Entry.ppi_setup. cbv zeta.
  destruct (Train.environ (Train.run_hyper a) !! "CUDA_VISIBLE_DEVICES")
    as [v|].
  - destruct (1 <? Train.n_gpu (Train.run_hyper a)) eqn:Eg.
    + apply Z.ltb_lt in Eg. split; [eauto|]. intros _. cbn. auto 10.
    + apply Z.ltb_ge in Eg. split; [|intros (_ & H); lia].
      cbn. intros H.
      repeat (destruct H as [H|H]; [discriminate|]). destruct H.
  - split; [|intros ((v & H) & _); discriminate].
    cbn. intros H.
    repeat (destruct H as [H|H]; [discriminate|]). destruct H.
Qed.
